(** * Tachyon: container information aggregation and cache

    A shallow embedding of the Go sources of tachyon (the container
    discovery, the per-container enrichment adapters and their parsers,
    the TTL-gated cache, the periodic refresher and the table refresh of
    the UI), followed by the properties established about them.

    Conventions.
    - Go's [int] is the 64-bit two's-complement integer of the release
      targets (amd64, arm64): a [Z] kept in range by [int64].
    - Go strings are byte strings: [string] of [ascii].
    - A Go slice is a [list] (the nil slice and the empty slice are both
      [[]]); a Go map is a [gmap].
    - A Go function returning [(T, error)] returns a [Result T]; every such
      function of the sources returns the zero value of [T] beside a
      non-nil error, which is what [zero_or] restores where the value is
      stored before the error is tested.
    - Everything outside the repository (external processes, pseudo-files,
      gopsutil, the JSON decoder, the clock) is an [Env] of oracles indexed
      by the time of the call; each external call is appended to the
      machine's [trace]. *)

From Stdlib Require Import ZArith String Ascii List DecimalString PrimFloat.
From Stdlib Require DecimalPos DecimalZ.
From stdpp Require Import gmap strings list.

Open Scope string_scope.
Open Scope list_scope.
Open Scope Z_scope.

(** ** Go's integers *)

Definition int64 (z : Z) : Z := (z + 2 ^ 63) mod 2 ^ 64 - 2 ^ 63.
Definition int32 (z : Z) : Z := (z + 2 ^ 31) mod 2 ^ 32 - 2 ^ 31.

Definition in_int64 (z : Z) : bool := (- 2 ^ 63 <=? z) && (z <=? 2 ^ 63 - 1).

(** ** Errors *)

(** [fmt_Errorf msg e] is [fmt.Errorf(msg + ": %w", e)]; [ext_error] is an
    error value produced outside the repository. *)
Inductive error : Type :=
| errors_New (msg : string)
| fmt_Errorf (msg : string) (wrapped : error)
| ext_error (what : string).

Fixpoint Error (e : error) : string :=
  match e with
  | errors_New msg => msg
  | fmt_Errorf msg w => String.append msg (String.append ": " (Error w))
  | ext_error what => what
  end.

Inductive Result (A : Type) : Type :=
| Ok (v : A)
| Err (e : error).
Arguments Ok {A} v.
Arguments Err {A} e.

Definition zero_or {A} (zero : A) (r : Result A) : A :=
  match r with Ok v => v | Err _ => zero end.

Definition err_of {A} (r : Result A) : option error :=
  match r with Ok _ => None | Err e => Some e end.

(** ** The parts of Go's [strings] and [strconv] the sources use *)

Module GoLib.

(** [strings.Split(s, sep)] for a one-byte separator. *)
Fixpoint Split (sep : ascii) (s : string) : list string :=
  match s with
  | EmptyString => [EmptyString]
  | String c rest =>
      if Ascii.eqb c sep then EmptyString :: Split sep rest
      else match Split sep rest with
           | x :: xs => String c x :: xs
           | [] => [String c EmptyString]
           end
  end.

(** [strings.Join(ls, sep)] for a one-byte separator. *)
Fixpoint Join (sep : ascii) (ls : list string) : string :=
  match ls with
  | [] => EmptyString
  | [l] => l
  | l :: rest => String.append l (String sep (Join sep rest))
  end.

Definition newline : ascii := "010"%char.

(** The first three bytes of a string, 0 where it ends before. *)
Definition head3 (s : string) : N * N * N :=
  match s with
  | EmptyString => (0, 0, 0)%N
  | String a EmptyString => (N_of_ascii a, 0, 0)%N
  | String a (String b EmptyString) => (N_of_ascii a, N_of_ascii b, 0%N)
  | String a (String b (String c _)) => (N_of_ascii a, N_of_ascii b, N_of_ascii c)
  end.

(** The width in bytes of the white-space character (of [unicode.IsSpace],
    in UTF-8) that [s] starts with, 0 when it starts with none: tab, line
    feed, vertical tab, form feed, carriage return, space; U+0085, U+00A0;
    U+1680; U+2000 to U+200A, U+2028, U+2029, U+202F, U+205F; U+3000. *)
Definition space_width (s : string) : nat :=
  let '(a, b, c) := head3 s in
  if (((9 <=? a) && (a <=? 13)) || (a =? 32))%N then 1%nat
  else if ((a =? 194) && ((b =? 133) || (b =? 160)))%N then 2%nat
  else if ((a =? 225) && (b =? 154) && (c =? 128))%N then 3%nat
  else if ((a =? 226) && (b =? 128)
           && (((128 <=? c) && (c <=? 138)) || (c =? 168) || (c =? 169) || (c =? 175)))%N
       then 3%nat
  else if ((a =? 226) && (b =? 129) && (c =? 159))%N then 3%nat
  else if ((a =? 227) && (b =? 128) && (c =? 128))%N then 3%nat
  else 0%nat.

Definition rev_string (s : string) : string :=
  string_of_list_ascii (rev (list_ascii_of_string s)).

(** The field being read, kept in reverse, as a field of the result. *)
Definition close_field (cur : list ascii) : list string :=
  match cur with
  | [] => []
  | _ => [string_of_list_ascii (rev cur)]
  end.

(** [skip] bytes of a white-space character are still to be passed over;
    [cur] is the field being read. *)
Fixpoint fields_from (skip : nat) (cur : list ascii) (s : string) : list string :=
  match s with
  | EmptyString => close_field cur
  | String c r =>
      match skip with
      | S k => fields_from k cur r
      | O =>
          match space_width s with
          | O => fields_from 0 (c :: cur) r
          | S k => close_field cur ++ fields_from k [] r
          end
      end
  end.

(** [strings.Fields]: the maximal runs of bytes between white space. *)
Definition Fields (s : string) : list string := fields_from 0 [] s.

Fixpoint trim_left_from (skip : nat) (s : string) : string :=
  match s with
  | EmptyString => EmptyString
  | String c r =>
      match skip with
      | S k => trim_left_from k r
      | O =>
          match space_width s with
          | O => s
          | S k => trim_left_from k r
          end
      end
  end.

(** The width of the white-space character that [s] ends with, [s] being
    given in reverse. *)
Definition space_width_rev (rs : string) : nat :=
  let '(c, b, a) := head3 rs in
  if (space_width (String (ascii_of_N c) EmptyString) =? 1)%nat then 1%nat
  else if (space_width (String (ascii_of_N b) (String (ascii_of_N c) EmptyString)) =? 2)%nat
       then 2%nat
  else if (space_width (String (ascii_of_N a) (String (ascii_of_N b)
                          (String (ascii_of_N c) EmptyString))) =? 3)%nat
       then 3%nat
  else 0%nat.

Fixpoint trim_right_from (skip : nat) (rs : string) : string :=
  match rs with
  | EmptyString => EmptyString
  | String c r =>
      match skip with
      | S k => trim_right_from k r
      | O =>
          match space_width_rev rs with
          | O => rs
          | S k => trim_right_from k r
          end
      end
  end.

(** [strings.TrimSpace]. *)
Definition TrimSpace (s : string) : string :=
  rev_string (trim_right_from 0 (rev_string (trim_left_from 0 s))).

(** [strconv.Itoa]. *)
Definition Itoa (z : Z) : string := NilZero.string_of_int (Z.to_int z).

Definition digit_of (c : ascii) : option Z :=
  let n := N_of_ascii c in
  if ((48 <=? n) && (n <=? 57))%N then Some (Z.of_N n - 48) else None.

(** The value of a string of decimal digits read from the left with
    accumulator [acc]; [None] at a byte that is no digit. *)
Fixpoint digits (acc : Z) (s : string) : option Z :=
  match s with
  | EmptyString => Some acc
  | String c r =>
      match digit_of c with
      | Some d => digits (acc * 10 + d) r
      | None => None
      end
  end.

(** [strconv.Atoi]: an optional sign, at least one decimal digit, nothing
    else, and a value that fits [int]; a [*NumError] (of syntax or of
    range) otherwise. *)
Definition Atoi (s : string) : Result Z :=
  let '(neg, body) :=
    match s with
    | String "-" r => (true, r)
    | String "+" r => (false, r)
    | _ => (false, s)
    end in
  match body with
  | EmptyString => Err (ext_error "strconv.Atoi: parsing error")
  | _ =>
      match digits 0 body with
      | None => Err (ext_error "strconv.Atoi: parsing error")
      | Some n =>
          let v := if neg then - n else n in
          if in_int64 v then Ok v
          else Err (ext_error "strconv.Atoi: parsing error")
      end
  end.

End GoLib.
Import GoLib.

(** ** The data model (the struct types of the sources) *)

Record NetworkUsage : Type := {
  ReceivedBytes : Z;
  TransmittedBytes : Z
}.

Record ProcessInfo : Type := {
  pi_PID : Z;
  pi_User : string;
  pi_CPU : float;
  pi_MEM : float;
  pi_CMD : string
}.

(** [LsofOutput]; the field of the source named [Type] is [Type_] here, and
    its [PID] is [lsof_PID] (the name [PID] is the [Container]'s). *)
Record LsofOutput : Type := {
  Command : string;
  lsof_PID : string;
  User : string;
  FD : string;
  Type_ : string;
  Device : string;
  SizeOff : string;
  Node : string;
  Name : string
}.

Record ResourceLimits : Type := {
  CPULimit : float;
  MemoryLimit : Z;
  DiskIOLimit : Z;
  NetworkLimit : Z
}.

Record ResourceUsage : Type := {
  CPUUsage : float;
  MemoryUsage : gmap string Z;
  SwapUsage : Z
}.

Record Container : Type := {
  OciVersion : string;
  ID : string;
  PID : Z;
  Status : string;
  Bundle : string;
  RootFS : string;
  Created : string;
  Annotations : gmap string string;
  Owner : string;
  OpenFiles : list LsofOutput;
  NetworkUsage_ : NetworkUsage;
  MountedVolumes : list string;
  ExposedPorts : list Z;
  TopProcesses : list ProcessInfo;
  SecurityProfiles : list string;
  StartCommand : string;
  ResourceLimits_ : ResourceLimits;
  EnvVariables : list string;
  ResourceUsage_ : ResourceUsage
}.

(** Go's zero values. *)
Definition zero_NetworkUsage : NetworkUsage :=
  {| ReceivedBytes := 0; TransmittedBytes := 0 |}.

Definition zero_LsofOutput : LsofOutput :=
  {| Command := ""; lsof_PID := ""; User := ""; FD := ""; Type_ := "";
     Device := ""; SizeOff := ""; Node := ""; Name := "" |}.

Definition zero_ResourceLimits : ResourceLimits :=
  {| CPULimit := 0%float; MemoryLimit := 0; DiskIOLimit := 0; NetworkLimit := 0 |}.

Definition zero_ResourceUsage : ResourceUsage :=
  {| CPUUsage := 0%float; MemoryUsage := ∅; SwapUsage := 0 |}.

Definition zero_Container : Container :=
  {| OciVersion := ""; ID := ""; PID := 0; Status := ""; Bundle := "";
     RootFS := ""; Created := ""; Annotations := ∅; Owner := "";
     OpenFiles := []; NetworkUsage_ := zero_NetworkUsage;
     MountedVolumes := []; ExposedPorts := []; TopProcesses := [];
     SecurityProfiles := []; StartCommand := "";
     ResourceLimits_ := zero_ResourceLimits; EnvVariables := [];
     ResourceUsage_ := zero_ResourceUsage |}.

(** ** The open-files parser (the line loop of [getOpenFiles]) *)

Module Lsof.

Definition set_Command v (e : LsofOutput) : LsofOutput :=
  {| Command := v; lsof_PID := lsof_PID e; User := User e; FD := FD e;
     Type_ := Type_ e; Device := Device e; SizeOff := SizeOff e;
     Node := Node e; Name := Name e |}.
Definition set_PID v (e : LsofOutput) : LsofOutput :=
  {| Command := Command e; lsof_PID := v; User := User e; FD := FD e;
     Type_ := Type_ e; Device := Device e; SizeOff := SizeOff e;
     Node := Node e; Name := Name e |}.
Definition set_User v (e : LsofOutput) : LsofOutput :=
  {| Command := Command e; lsof_PID := lsof_PID e; User := v; FD := FD e;
     Type_ := Type_ e; Device := Device e; SizeOff := SizeOff e;
     Node := Node e; Name := Name e |}.
Definition set_FD v (e : LsofOutput) : LsofOutput :=
  {| Command := Command e; lsof_PID := lsof_PID e; User := User e; FD := v;
     Type_ := Type_ e; Device := Device e; SizeOff := SizeOff e;
     Node := Node e; Name := Name e |}.
Definition set_Type v (e : LsofOutput) : LsofOutput :=
  {| Command := Command e; lsof_PID := lsof_PID e; User := User e; FD := FD e;
     Type_ := v; Device := Device e; SizeOff := SizeOff e;
     Node := Node e; Name := Name e |}.
Definition set_Device v (e : LsofOutput) : LsofOutput :=
  {| Command := Command e; lsof_PID := lsof_PID e; User := User e; FD := FD e;
     Type_ := Type_ e; Device := v; SizeOff := SizeOff e;
     Node := Node e; Name := Name e |}.
Definition set_SizeOff v (e : LsofOutput) : LsofOutput :=
  {| Command := Command e; lsof_PID := lsof_PID e; User := User e; FD := FD e;
     Type_ := Type_ e; Device := Device e; SizeOff := v;
     Node := Node e; Name := Name e |}.
Definition set_Node v (e : LsofOutput) : LsofOutput :=
  {| Command := Command e; lsof_PID := lsof_PID e; User := User e; FD := FD e;
     Type_ := Type_ e; Device := Device e; SizeOff := SizeOff e;
     Node := v; Name := Name e |}.
Definition set_Name v (e : LsofOutput) : LsofOutput :=
  {| Command := Command e; lsof_PID := lsof_PID e; User := User e; FD := FD e;
     Type_ := Type_ e; Device := Device e; SizeOff := SizeOff e;
     Node := Node e; Name := v |}.

(** The loop state: the slice [entries] and the record [entry] being
    accumulated. *)
Definition loop_state : Type := (list LsofOutput * LsofOutput)%type.

(** One iteration of [for _, line := range lines]. *)
Definition step (st : loop_state) (line : string) : loop_state :=
  let '(entries, entry) := st in
  match line with
  | String tag (String _ _ as value) =>          (* len(line) > 1 *)
      if Ascii.eqb tag "p" then
        let '(entries, entry) :=
          if negb (String.eqb (lsof_PID entry) "")
          then (entries ++ [entry], zero_LsofOutput)
          else (entries, entry) in
        (entries, set_PID value entry)
      else if Ascii.eqb tag "c" then (entries, set_Command value entry)
      else if Ascii.eqb tag "u" then (entries, set_User value entry)
      else if Ascii.eqb tag "f" then (entries, set_FD value entry)
      else if Ascii.eqb tag "t" then (entries, set_Type value entry)
      else if Ascii.eqb tag "D" then (entries, set_Device value entry)
      else if Ascii.eqb tag "s" then (entries, set_SizeOff value entry)
      else if Ascii.eqb tag "i" then (entries, set_Node value entry)
      else if Ascii.eqb tag "n" then (entries, set_Name value entry)
      else (entries, entry)
  | _ => (entries, entry)
  end.

(** The flush after the loop. *)
Definition flush (st : loop_state) : list LsofOutput :=
  let '(entries, entry) := st in
  if negb (String.eqb (lsof_PID entry) "") then entries ++ [entry] else entries.

(** From [lines := strings.Split(string(out), "\n")] to the returned
    slice. *)
Definition parse (out : string) : list LsofOutput :=
  flush (fold_left step (Split newline out) ([], zero_LsofOutput)).

End Lsof.

(** ** The network-usage parser (the line loop of [getContainerNetworkUsage]) *)

Module NetDev.

(** One iteration of [for _, line := range lines], on the pair
    [(totalReceivedBytes, totalTransmittedBytes)]; the two [continue]s
    leave both totals as they are. *)
Definition step (totals : Z * Z) (line : string) : Z * Z :=
  let '(totalReceivedBytes, totalTransmittedBytes) := totals in
  let fields := Fields line in
  if (10 <? length fields)%nat then
    match Atoi (nth 1 fields "") with
    | Err _ => totals
    | Ok receivedBytes =>
        match Atoi (nth 9 fields "") with
        | Err _ => totals
        | Ok transmittedBytes =>
            (int64 (totalReceivedBytes + receivedBytes),
             int64 (totalTransmittedBytes + transmittedBytes))
        end
    end
  else totals.

Definition parse (content : string) : NetworkUsage :=
  let '(r, t) := fold_left step (Split newline content) (0, 0) in
  {| ReceivedBytes := r; TransmittedBytes := t |}.

End NetDev.

(** ** The outside world *)

(** Instants and durations are in nanoseconds, as in Go's [time]. *)
Definition Time : Type := Z.
Definition Second : Z := 1000000000.
Definition maxDuration : Z := 2 ^ 63 - 1.
Definition minDuration : Z := - 2 ^ 63.

(** [t.Sub(u)], which saturates. *)
Definition time_Sub (t u : Time) : Z :=
  let d := t - u in
  if maxDuration <? d then maxDuration
  else if d <? minDuration then minDuration
  else d.

(** gopsutil's [cpu.TimesStat], [process.MemoryInfoStat] and
    [net.ConnectionStat], as far as the sources read them. *)
Record TimesStat : Type := { ts_User : float; ts_System : float }.
Record MemoryInfoStat : Type := { mi_RSS : Z; mi_VMS : Z; mi_Swap : Z }.
Record ConnectionStat : Type := { cs_Status : string; cs_LaddrPort : Z }.

(** The enrichment adapters, by the field of [Container] each fills:
    [getOpenFiles], [getContainerNetworkUsage], [getContainerMountedVolumes],
    [getContainerExposedPorts], [getContainerStartCommand],
    [getContainerSecurityProfiles], [getEnvironmentVariables] and
    [getContainerResourceUsage]. *)
Inductive Adapter : Type :=
| AOpenFiles
| ANetworkUsage
| AMountedVolumes
| AExposedPorts
| AStartCommand
| ASecurityProfiles
| AEnvVariables
| AResourceUsage.

Global Instance Adapter_eq_dec : EqDecision Adapter.
Proof. solve_decision. Defined.

(** What a run leaves in the trace: the calls of [PopulateContainer] and of
    the adapters on the container of process id [pid], and the calls that
    leave the program. *)
Inductive Event : Type :=
| EvPopulate (pid : Z)
| EvAdapter (a : Adapter) (pid : Z)
| EvExec (argv : list string)
| EvReadFile (path : string)
| EvConnectionsPid (kind : string) (pid : Z)
| EvNewProcess (pid : Z)
| EvProcess (method : string) (pid : Z).

Record Env : Type := {
  exec_Output : Time -> list string -> Result string;
  exec_CombinedOutput : Time -> list string -> Result string;
  os_ReadFile : Time -> string -> Result string;
  net_ConnectionsPid : Time -> string -> Z -> Result (list ConnectionStat);
  process_NewProcess : Time -> Z -> option error;
  process_Times : Time -> Z -> Result TimesStat;
  process_Cmdline : Time -> Z -> Result string;
  process_Environ : Time -> Z -> Result (list string);
  process_MemoryInfo : Time -> Z -> Result MemoryInfoStat;
  json_Unmarshal : string -> Result (list Container);
  time_Parse : string -> string -> Result Time;
  time_Format : Time -> string -> string;
  (** how long an external call takes *)
  latency : Event -> Z;
  (** the order in which a [range] over the cache visits its keys *)
  range_rank : Time -> string -> nat
}.

(** ** The machine: the package-level variables, the clock and the trace *)

Record Machine : Type := {
  containerCache : gmap string Container;
  lastRefreshed : Time;
  clock : Time;
  trace : list Event
}.

Definition set_cache (cache : gmap string Container) (now : Time) (m : Machine) : Machine :=
  {| containerCache := cache; lastRefreshed := now;
     clock := clock m; trace := trace m |}.

(** Time passing between two operations. *)
Definition elapse (d : Z) (m : Machine) : Machine :=
  {| containerCache := containerCache m; lastRefreshed := lastRefreshed m;
     clock := clock m + d; trace := trace m |}.

(** [time.Since(t)]. *)
Definition time_Since (m : Machine) (t : Time) : Z := time_Sub (clock m) t.

Definition M (A : Type) : Type := Machine -> Result A * Machine.

Definition ret {A} (v : A) : M A := fun m => (Ok v, m).
Definition fail {A} (e : error) : M A := fun m => (Err e, m).
Definition bind {A B} (x : M A) (k : A -> M B) : M B :=
  fun m => match x m with
           | (Ok v, m') => k v m'
           | (Err e, m') => (Err e, m')
           end.

Notation "x <- c ;; k" := (bind c (fun x => k))
  (at level 100, c at next level, right associativity).

(** [if err != nil { return zero, fmt.Errorf(msg + ": %w", err) }]. *)
Definition wrapping {A} (msg : string) (x : M A) : M A :=
  fun m => match x m with
           | (Ok v, m') => (Ok v, m')
           | (Err e, m') => (Err (fmt_Errorf msg e), m')
           end.

(** Insertion of a cache entry by the rank of its key. *)
Fixpoint insert_by (rank : string -> nat) (x : string * Container)
    (l : list (string * Container)) : list (string * Container) :=
  match l with
  | [] => [x]
  | y :: l' => if (rank x.1 <=? rank y.1)%nat then x :: l else y :: insert_by rank x l'
  end.

(** [for _, container := range containerCache { containerCache[strconv.Itoa(container.PID)] = container }]
    and the loop of the same shape over a slice. *)
Definition store_all (containers : list Container) (cache : gmap string Container)
    : gmap string Container :=
  fold_left (fun acc container => <[Itoa (PID container) := container]> acc) containers cache.

Section Program.

Variable E : Env.

Definition emit (ev : Event) (m : Machine) : Machine :=
  {| containerCache := containerCache m; lastRefreshed := lastRefreshed m;
     clock := clock m + latency E ev; trace := trace m ++ [ev] |}.

(** A call that leaves the program: answered by the world as it is when
    the call is made, recorded, and paid for in time. *)
Definition external {A} (ev : Event) (oracle : Time -> Result A) : M A :=
  fun m => (oracle (clock m), emit ev m).

(** The call of a method of the program: recorded, and no more. *)
Definition enter (ev : Event) : M unit :=
  fun m => (Ok tt, {| containerCache := containerCache m;
                      lastRefreshed := lastRefreshed m;
                      clock := clock m; trace := trace m ++ [ev] |}).

Definition NewProcess (pid : Z) : M Z :=
  external (EvNewProcess pid)
    (fun t => match process_NewProcess E t pid with
              | None => Ok pid
              | Some e => Err e
              end).

(** The values of the cache in the order of a [range] over it. *)
Definition range_values (m : Machine) : list Container :=
  (foldr (insert_by (range_rank E (clock m))) [] (map_to_list (containerCache m))).*2.

(** *** The adapters *)

Definition lsof_argv (pid : Z) : list string :=
  ["sudo"; "lsof"; "-F"; "-n"; "-p"; Itoa pid].

Definition getOpenFiles (c : Container) : M (list LsofOutput) :=
  _ <- enter (EvAdapter AOpenFiles (PID c)) ;;
  out <- external (EvExec (lsof_argv (PID c)))
           (fun t => exec_CombinedOutput E t (lsof_argv (PID c))) ;;
  ret (Lsof.parse out).

Definition proc_path (pid : Z) (file : string) : string :=
  String.append "/proc/" (String.append (Itoa pid) file).

Definition getContainerNetworkUsage (c : Container) : M NetworkUsage :=
  _ <- enter (EvAdapter ANetworkUsage (PID c)) ;;
  content <- external (EvReadFile (proc_path (PID c) "/net/dev"))
               (fun t => os_ReadFile E t (proc_path (PID c) "/net/dev")) ;;
  ret (NetDev.parse content).

Definition mount_point (line : string) : option string :=
  let parts := Split " " line in
  if (2 <? length parts)%nat then Some (nth 1 parts "") else None.

Definition getContainerMountedVolumes (c : Container) : M (list string) :=
  _ <- enter (EvAdapter AMountedVolumes (PID c)) ;;
  fileContent <- external (EvReadFile (proc_path (PID c) "/mounts"))
                   (fun t => os_ReadFile E t (proc_path (PID c) "/mounts")) ;;
  ret (omap mount_point (Split newline fileContent)).

Definition listen_port (stat : ConnectionStat) : option Z :=
  if String.eqb (cs_Status stat) "LISTEN" then Some (int64 (cs_LaddrPort stat)) else None.

Definition getContainerExposedPorts (c : Container) : M (list Z) :=
  _ <- enter (EvAdapter AExposedPorts (PID c)) ;;
  stats <- external (EvConnectionsPid "inet" (int32 (PID c)))
             (fun t => net_ConnectionsPid E t "inet" (int32 (PID c))) ;;
  ret (omap listen_port stats).

Definition getContainerStartCommand (c : Container) : M string :=
  _ <- enter (EvAdapter AStartCommand (PID c)) ;;
  p <- NewProcess (int32 (PID c)) ;;
  cmd <- external (EvProcess "Cmdline" p) (fun t => process_Cmdline E t p) ;;
  ret (TrimSpace cmd).

Definition getContainerSecurityProfiles (c : Container) : M (list string) :=
  _ <- enter (EvAdapter ASecurityProfiles (PID c)) ;;
  content <- external (EvReadFile (proc_path (PID c) "/attr/current"))
               (fun t => os_ReadFile E t (proc_path (PID c) "/attr/current")) ;;
  ret (map TrimSpace (Split "," content)).

Definition getEnvironmentVariables (c : Container) : M (list string) :=
  _ <- enter (EvAdapter AEnvVariables (PID c)) ;;
  p <- NewProcess (int32 (PID c)) ;;
  envsSlice <- external (EvProcess "Environ" p) (fun t => process_Environ E t p) ;;
  ret envsSlice.

Definition getContainerCPUUsage (c : Container) : M float :=
  p <- NewProcess (int32 (PID c)) ;;
  cpuTimes <- external (EvProcess "Times" p) (fun t => process_Times E t p) ;;
  ret (PrimFloat.mul (PrimFloat.add (ts_User cpuTimes) (ts_System cpuTimes)) 100%float).

(** Declared in the sources and called from nowhere. *)
Definition getContainerSwapUsage (c : Container) : M Z :=
  proc <- NewProcess (int32 (PID c)) ;;
  memoryInfo <- external (EvProcess "MemoryInfo" proc)
                  (fun t => process_MemoryInfo E t proc) ;;
  ret (int64 (mi_Swap memoryInfo)).

Definition getContainerMemoryDetails (c : Container) : M (gmap string Z) :=
  proc <- NewProcess (int32 (PID c)) ;;
  memoryInfo <- external (EvProcess "MemoryInfo" proc)
                  (fun t => process_MemoryInfo E t proc) ;;
  ret (<["VMS" := int64 (mi_VMS memoryInfo)]>
         (<["RSS" := int64 (mi_RSS memoryInfo)]> ∅)).

Definition getContainerResourceUsage (c : Container) : M ResourceUsage :=
  _ <- enter (EvAdapter AResourceUsage (PID c)) ;;
  cpuUsage <- wrapping "error getting CPU usage" (getContainerCPUUsage c) ;;
  memoryUsage <- wrapping "error getting memory usage" (getContainerMemoryDetails c) ;;
  (* the composite literal names [CPUUsage] and [MemoryUsage] only:
   [SwapUsage] is the zero value *)
ret {| CPUUsage := cpuUsage; MemoryUsage := memoryUsage; SwapUsage := 0 |}.

End Program.

(** ** Assignments to the enrichment fields of a [Container] *)

Definition set_OpenFiles (v : list LsofOutput) (c : Container) : Container :=
  {| OciVersion := OciVersion c; ID := ID c; PID := PID c; Status := Status c;
     Bundle := Bundle c; RootFS := RootFS c; Created := Created c;
     Annotations := Annotations c; Owner := Owner c; OpenFiles := v;
     NetworkUsage_ := NetworkUsage_ c; MountedVolumes := MountedVolumes c;
     ExposedPorts := ExposedPorts c; TopProcesses := TopProcesses c;
     SecurityProfiles := SecurityProfiles c; StartCommand := StartCommand c;
     ResourceLimits_ := ResourceLimits_ c; EnvVariables := EnvVariables c;
     ResourceUsage_ := ResourceUsage_ c |}.

Definition set_NetworkUsage (v : NetworkUsage) (c : Container) : Container :=
  {| OciVersion := OciVersion c; ID := ID c; PID := PID c; Status := Status c;
     Bundle := Bundle c; RootFS := RootFS c; Created := Created c;
     Annotations := Annotations c; Owner := Owner c; OpenFiles := OpenFiles c;
     NetworkUsage_ := v; MountedVolumes := MountedVolumes c;
     ExposedPorts := ExposedPorts c; TopProcesses := TopProcesses c;
     SecurityProfiles := SecurityProfiles c; StartCommand := StartCommand c;
     ResourceLimits_ := ResourceLimits_ c; EnvVariables := EnvVariables c;
     ResourceUsage_ := ResourceUsage_ c |}.

Definition set_MountedVolumes (v : list string) (c : Container) : Container :=
  {| OciVersion := OciVersion c; ID := ID c; PID := PID c; Status := Status c;
     Bundle := Bundle c; RootFS := RootFS c; Created := Created c;
     Annotations := Annotations c; Owner := Owner c; OpenFiles := OpenFiles c;
     NetworkUsage_ := NetworkUsage_ c; MountedVolumes := v;
     ExposedPorts := ExposedPorts c; TopProcesses := TopProcesses c;
     SecurityProfiles := SecurityProfiles c; StartCommand := StartCommand c;
     ResourceLimits_ := ResourceLimits_ c; EnvVariables := EnvVariables c;
     ResourceUsage_ := ResourceUsage_ c |}.

Definition set_ExposedPorts (v : list Z) (c : Container) : Container :=
  {| OciVersion := OciVersion c; ID := ID c; PID := PID c; Status := Status c;
     Bundle := Bundle c; RootFS := RootFS c; Created := Created c;
     Annotations := Annotations c; Owner := Owner c; OpenFiles := OpenFiles c;
     NetworkUsage_ := NetworkUsage_ c; MountedVolumes := MountedVolumes c;
     ExposedPorts := v; TopProcesses := TopProcesses c;
     SecurityProfiles := SecurityProfiles c; StartCommand := StartCommand c;
     ResourceLimits_ := ResourceLimits_ c; EnvVariables := EnvVariables c;
     ResourceUsage_ := ResourceUsage_ c |}.

Definition set_StartCommand (v : string) (c : Container) : Container :=
  {| OciVersion := OciVersion c; ID := ID c; PID := PID c; Status := Status c;
     Bundle := Bundle c; RootFS := RootFS c; Created := Created c;
     Annotations := Annotations c; Owner := Owner c; OpenFiles := OpenFiles c;
     NetworkUsage_ := NetworkUsage_ c; MountedVolumes := MountedVolumes c;
     ExposedPorts := ExposedPorts c; TopProcesses := TopProcesses c;
     SecurityProfiles := SecurityProfiles c; StartCommand := v;
     ResourceLimits_ := ResourceLimits_ c; EnvVariables := EnvVariables c;
     ResourceUsage_ := ResourceUsage_ c |}.

Definition set_SecurityProfiles (v : list string) (c : Container) : Container :=
  {| OciVersion := OciVersion c; ID := ID c; PID := PID c; Status := Status c;
     Bundle := Bundle c; RootFS := RootFS c; Created := Created c;
     Annotations := Annotations c; Owner := Owner c; OpenFiles := OpenFiles c;
     NetworkUsage_ := NetworkUsage_ c; MountedVolumes := MountedVolumes c;
     ExposedPorts := ExposedPorts c; TopProcesses := TopProcesses c;
     SecurityProfiles := v; StartCommand := StartCommand c;
     ResourceLimits_ := ResourceLimits_ c; EnvVariables := EnvVariables c;
     ResourceUsage_ := ResourceUsage_ c |}.

Definition set_EnvVariables (v : list string) (c : Container) : Container :=
  {| OciVersion := OciVersion c; ID := ID c; PID := PID c; Status := Status c;
     Bundle := Bundle c; RootFS := RootFS c; Created := Created c;
     Annotations := Annotations c; Owner := Owner c; OpenFiles := OpenFiles c;
     NetworkUsage_ := NetworkUsage_ c; MountedVolumes := MountedVolumes c;
     ExposedPorts := ExposedPorts c; TopProcesses := TopProcesses c;
     SecurityProfiles := SecurityProfiles c; StartCommand := StartCommand c;
     ResourceLimits_ := ResourceLimits_ c; EnvVariables := v;
     ResourceUsage_ := ResourceUsage_ c |}.

Definition set_ResourceUsage (v : ResourceUsage) (c : Container) : Container :=
  {| OciVersion := OciVersion c; ID := ID c; PID := PID c; Status := Status c;
     Bundle := Bundle c; RootFS := RootFS c; Created := Created c;
     Annotations := Annotations c; Owner := Owner c; OpenFiles := OpenFiles c;
     NetworkUsage_ := NetworkUsage_ c; MountedVolumes := MountedVolumes c;
     ExposedPorts := ExposedPorts c; TopProcesses := TopProcesses c;
     SecurityProfiles := SecurityProfiles c; StartCommand := StartCommand c;
     ResourceLimits_ := ResourceLimits_ c; EnvVariables := EnvVariables c;
     ResourceUsage_ := v |}.
Section Cache.

Variable E : Env.

(** *** The assembler *)

(** [PopulateContainer] returns the error alone and leaves what it
    assigned in the receiver: here it returns the receiver beside the
    error.  Each adapter's value (the zero value beside an error) is
    stored before the error is tested. *)
Definition PopulateContainer (c : Container) (m : Machine)
    : (Container * option error) * Machine :=
  let m := (enter (EvPopulate (PID c)) m).2 in
  let '(r, m) := getOpenFiles E c m in
  let c := set_OpenFiles (zero_or [] r) c in
  match err_of r with
  | Some err => ((c, Some (fmt_Errorf "failed to get open files" err)), m)
  | None =>
  let '(r, m) := getContainerNetworkUsage E c m in
  let c := set_NetworkUsage (zero_or zero_NetworkUsage r) c in
  match err_of r with
  | Some err => ((c, Some (fmt_Errorf "failed to get network usage" err)), m)
  | None =>
  let '(r, m) := getContainerMountedVolumes E c m in
  let c := set_MountedVolumes (zero_or [] r) c in
  match err_of r with
  | Some err => ((c, Some (fmt_Errorf "failed to get mounted volumes" err)), m)
  | None =>
  let '(r, m) := getContainerExposedPorts E c m in
  let c := set_ExposedPorts (zero_or [] r) c in
  match err_of r with
  | Some err => ((c, Some (fmt_Errorf "failed to get exposed ports" err)), m)
  | None =>
  let '(r, m) := getContainerStartCommand E c m in
  let c := set_StartCommand (zero_or "" r) c in
  match err_of r with
  | Some err => ((c, Some (fmt_Errorf "failed to get start command" err)), m)
  | None =>
  let '(r, m) := getContainerSecurityProfiles E c m in
  let c := set_SecurityProfiles (zero_or [] r) c in
  match err_of r with
  | Some err => ((c, Some (fmt_Errorf "failed to get security profiles" err)), m)
  | None =>
  let '(r, m) := getEnvironmentVariables E c m in
  let c := set_EnvVariables (zero_or [] r) c in
  match err_of r with
  | Some err => ((c, Some (fmt_Errorf "failed to get environment variables" err)), m)
  | None =>
  let '(r, m) := getContainerResourceUsage E c m in
  let c := set_ResourceUsage (zero_or zero_ResourceUsage r) c in
  match err_of r with
  | Some err => ((c, Some (fmt_Errorf "failed to get resource usage" err)), m)
  | None => ((c, None), m)
  end end end end end end end end.

(** *** Discovery and the cache *)

Definition runc_argv : list string :=
  ["sudo"; "runc"; "--root"; "/run/containerd/runc/k8s.io"; "list"; "--format"; "json"].

(** [for i, _ := range containers { err := containers[i].PopulateContainer(); ... }] *)
Fixpoint populate_all (containers : list Container) : M (list Container) :=
  match containers with
  | [] => ret []
  | c :: rest =>
      fun m =>
        match PopulateContainer c m with
        | ((_, Some err), m') => (Err err, m')
        | ((c', None), m') =>
            (rest' <- populate_all rest ;; ret (c' :: rest')) m'
        end
  end.

Definition GetContainers (populate : bool) : M (list Container) :=
  fun m =>
    if time_Since m (lastRefreshed m) <? 10 * Second then
      (Ok (range_values E m), m)
    else
      (out <- wrapping "error executing runc command"
                (external E (EvExec runc_argv) (fun t => exec_Output E t runc_argv)) ;;
       if (String.length out =? 0)%nat then fail (errors_New "runc output is empty")
       else
         containers <- wrapping "failed to unmarshal the runc output"
                         (fun m => (json_Unmarshal E out, m)) ;;
         containers <- (if populate then populate_all containers else ret containers) ;;
         fun m => (Ok containers, set_cache (store_all containers ∅) (clock m) m)) m.

Definition GetContainerByID (pid : string) : M Container :=
  fun m =>
    let cached := containerCache m !! pid in
    let container := default zero_Container cached in
    let exists_ := bool_decide (is_Some cached) in
    if exists_ && (time_Since m (lastRefreshed m) <? 20 * Second) then (Ok container, m)
    else
      (pidInt <- wrapping "invalid PID format" (fun m => (Atoi pid, m)) ;;
       containers <- GetContainers false ;;
       match List.find (fun c => PID c =? pidInt) containers with
       | Some found =>
           fun m =>
             match PopulateContainer found m with
             | ((_, Some err), m') =>
                 (Err (fmt_Errorf "failed to populate container" err), m')
             | ((found', None), m') => (Ok found', m')
             end
       | None =>
           fun m => (Ok container,
                     set_cache (<[pid := container]> (containerCache m)) (clock m) m)
       end) m.

(** *** The periodic refresher *)

Definition tickerPeriod : Z := 5 * Second.

(** The body of the goroutine of [StartCacheRefresh] at one tick.  The
    clock of the machine moves with the calls that leave the program and
    between operations only, so the [time.Now()] of the tick reads the
    value the [time.Now()] inside [GetContainers] read, where the program
    reads the clock a second, later time: no property below compares the
    two readings. *)
Definition refresh_tick (m : Machine) : Machine :=
  match GetContainers true m with
  | (Ok containers, m') =>
      set_cache (store_all containers (containerCache m')) (clock m') m'
  | (Err _, m') => m'
  end.

(** The goroutine over the ticks it receives, [gaps] being the time from
    the end of one iteration to the next tick. *)
Fixpoint refresher (gaps : list Z) (m : Machine) : Machine :=
  match gaps with
  | [] => m
  | d :: rest => refresher rest (refresh_tick (elapse d m))
  end.

(** *** The table refresh of the UI *)

Inductive Outcome (A : Type) : Type :=
| Returned (v : A)
| Panicked (e : error).

Definition table_header : list string := ["PID"; "Owner"; "Created"; "Status"].

(** The rows set for the containers, up to the first [Created] that does
    not parse, where [refreshTable] panics. *)
Fixpoint table_rows (containers : list Container) : Outcome (list (list string)) :=
  match containers with
  | [] => Returned _ []
  | container :: rest =>
      match time_Parse E "2006-01-02T15:04:05.999999999Z" (Created container) with
      | Err err => Panicked _ err
      | Ok t =>
          let formatted := time_Format E t "02-Jan-2006-03:04 PM" in
          match table_rows rest with
          | Returned _ rows =>
              Returned _ ([Itoa (PID container); Owner container; formatted;
                           Status container] :: rows)
          | Panicked _ err => Panicked _ err
          end
      end
  end.

(** [refreshTable]: the cells of the table it leaves, or the panic. *)
Definition refreshTable (m : Machine) : Outcome (list (list string)) * Machine :=
  match GetContainers true m with
  | (Err err, m') => (Panicked _ err, m')
  | (Ok containers, m') =>
      match table_rows containers with
      | Returned _ rows => (Returned _ (table_header :: rows), m')
      | Panicked _ err => (Panicked _ err, m')
      end
  end.

End Cache.

Arguments Returned {A} v.
Arguments Panicked {A} e.

(** ** Reference descriptions of the two parsers' inputs and results *)

Module LsofSpec.

(** The value a line carries under [tag]: the rest of a line longer than
    one byte that starts with [tag]. *)
Definition tagged (tag : ascii) (line : string) : option string :=
  match line with
  | String t (String _ _ as value) => if Ascii.eqb t tag then Some value else None
  | _ => None
  end.

(** A [p] group: the value of its [p] line and the lines that follow it up
    to the next [p] line. *)
Record group : Type := { g_pid : string; g_body : list string }.

Definition group_lines (g : group) : list string :=
  String "p" (g_pid g) :: g_body g.

(** The text of a block of groups, one line after the other. *)
Definition render (gs : list group) : string :=
  Join newline (concat (map group_lines gs)).

Fixpoint no_newline (s : string) : bool :=
  match s with
  | EmptyString => true
  | String c r => negb (Ascii.eqb c newline) && no_newline r
  end.

(** A group is well formed when its [p] line has a value and no line of
    its body is a [p] line (a body line may carry any other tag, known to
    the parser or not, and may be shorter than two bytes). *)
Definition well_formed (g : group) : bool :=
  negb (String.eqb (g_pid g) "") && no_newline (g_pid g)
  && forallb (fun l => no_newline l && bool_decide (tagged "p" l = None)) (g_body g).

(** The field of a group under [tag]: the value of the last line of the
    group that carries [tag], empty when none does. *)
Definition field_of (tag : ascii) (g : group) : string :=
  default "" (last (omap (tagged tag) (g_body g))).

Definition record_of (g : group) : LsofOutput :=
  {| Command := field_of "c" g; lsof_PID := g_pid g; User := field_of "u" g;
     FD := field_of "f" g; Type_ := field_of "t" g; Device := field_of "D" g;
     SizeOff := field_of "s" g; Node := field_of "i" g; Name := field_of "n" g |}.

(** The entry that the [p] line of the next group flushes. *)
Definition pending (e : LsofOutput) : list LsofOutput :=
  if String.eqb (lsof_PID e) "" then [] else [e].

End LsofSpec.

Module NetDevSpec.

(** The [i]-th (from 1) white-space-separated field of a line, read as an
    integer. *)
Definition field (i : nat) (line : string) : option Z :=
  match Fields line !! (i - 1)%nat with
  | Some f => match Atoi f with Ok v => Some v | Err _ => None end
  | None => None
  end.

(** The lines that count: at least 11 fields, the 2nd and the 10th of
    which are integers. *)
Definition counted (line : string) : bool :=
  (11 <=? length (Fields line))%nat
  && bool_decide (is_Some (field 2 line)) && bool_decide (is_Some (field 10 line)).

Definition sum_field (i : nat) (lines : list string) : Z :=
  foldr Z.add 0 (map (fun l => default 0 (field i l)) (filter (fun l => counted l = true) lines)).

End NetDevSpec.

(** ** Reading a trace *)

(** The process ids of the containers [PopulateContainer] was called on,
    in the order of the calls. *)
Definition populate_calls (tr : list Event) : list Z :=
  omap (fun ev => match ev with EvPopulate pid => Some pid | _ => None end) tr.

(** The adapters called, with the process id of the container, in the
    order of the calls. *)
Definition adapter_calls (tr : list Event) : list (Adapter * Z) :=
  omap (fun ev => match ev with EvAdapter a pid => Some (a, pid) | _ => None end) tr.

(** The number of Discovery passes: executions of the runtime's listing
    command. *)
Definition discoveries (tr : list Event) : nat :=
  length (omap (fun ev => match ev with
                          | EvExec argv => if decide (argv = runc_argv) then Some argv else None
                          | _ => None
                          end) tr).

(** ** The enrichment steps of [PopulateContainer], one by one *)

(** [c.Field, err = c.adapter()]: the receiver after the assignment and the
    adapter's own error. *)
Definition assign {A} (adapter : Container -> M A) (zero : A)
    (set : A -> Container -> Container) (c : Container) (m : Machine)
    : (Container * option error) * Machine :=
  let '(r, m') := adapter c m in ((set (zero_or zero r) c, err_of r), m').

Definition run_adapter (E : Env) (a : Adapter)
    : Container -> Machine -> (Container * option error) * Machine :=
  match a with
  | AOpenFiles => assign (getOpenFiles E) [] set_OpenFiles
  | ANetworkUsage => assign (getContainerNetworkUsage E) zero_NetworkUsage set_NetworkUsage
  | AMountedVolumes => assign (getContainerMountedVolumes E) [] set_MountedVolumes
  | AExposedPorts => assign (getContainerExposedPorts E) [] set_ExposedPorts
  | AStartCommand => assign (getContainerStartCommand E) "" set_StartCommand
  | ASecurityProfiles => assign (getContainerSecurityProfiles E) [] set_SecurityProfiles
  | AEnvVariables => assign (getEnvironmentVariables E) [] set_EnvVariables
  | AResourceUsage => assign (getContainerResourceUsage E) zero_ResourceUsage set_ResourceUsage
  end.

(** The order of the adapters in the body of [PopulateContainer]. *)
Definition enrichment_order : list Adapter :=
  [AOpenFiles; ANetworkUsage; AMountedVolumes; AExposedPorts; AStartCommand;
   ASecurityProfiles; AEnvVariables; AResourceUsage].

(** What [PopulateContainer] puts before the error of a failed step. *)
Definition adapter_message (a : Adapter) : string :=
  match a with
  | AOpenFiles => "failed to get open files"
  | ANetworkUsage => "failed to get network usage"
  | AMountedVolumes => "failed to get mounted volumes"
  | AExposedPorts => "failed to get exposed ports"
  | AStartCommand => "failed to get start command"
  | ASecurityProfiles => "failed to get security profiles"
  | AEnvVariables => "failed to get environment variables"
  | AResourceUsage => "failed to get resource usage"
  end.

(** [sequential E adapters c m log c' m']: running [adapters] one after the
    other from the container [c] and the machine [m], and stopping behind
    the first that returns an error, runs exactly the adapters of [log],
    with the errors they returned, and ends in [c'] and [m']. *)
Inductive sequential (E : Env)
  : list Adapter -> Container -> Machine ->
    list (Adapter * option error) -> Container -> Machine -> Prop :=
| seq_none c m :
    sequential E [] c m [] c m
| seq_ok a rest c m c1 m1 log c2 m2 :
    run_adapter E a c m = ((c1, None), m1) ->
    sequential E rest c1 m1 log c2 m2 ->
    sequential E (a :: rest) c m ((a, None) :: log) c2 m2
| seq_abort a rest c m c1 e m1 :
    run_adapter E a c m = ((c1, Some e), m1) ->
    sequential E (a :: rest) c m [(a, Some e)] c1 m1.

(** ** Scenarios *)

Module Scenario.

Definition bare (pid : Z) : Container :=
  {| OciVersion := "1.0.2"; ID := String.append "c" (Itoa pid); PID := pid;
     Status := "running"; Bundle := "/run/bundle"; RootFS := "/run/rootfs";
     Created := "2023-10-01T10:00:00.000000000Z"; Annotations := ∅; Owner := "root";
     OpenFiles := []; NetworkUsage_ := zero_NetworkUsage;
     MountedVolumes := []; ExposedPorts := []; TopProcesses := [];
     SecurityProfiles := []; StartCommand := "";
     ResourceLimits_ := zero_ResourceLimits; EnvVariables := [];
     ResourceUsage_ := zero_ResourceUsage |}.

Definition lsof_text : string :=
  Join newline ["p100"; "cnginx"; "u0"; "fcwd"; "tDIR"; "n/"; ""].

Definition netdev_text : string :=
  Join newline
    ["Inter-|   Receive                    |  Transmit";
     "  eth0: 1500 10 0 0 0 0 0 0 2500 20 0 0 0 0 0 0"; ""].

Definition mounts_text : string :=
  Join newline
    ["overlay / overlay rw,relatime 0 0"; "proc /proc proc rw,nosuid 0 0"; ""].

Definition pids : list Z := [100; 200; 300].

(** A node whose runtime answers [runc] to the listing command, whose
    decoder reads the three texts below, and on which every source answers
    except [lsof] for the process ids of [gone]. *)
Definition env (runc : Result string) (gone : list Z) : Env :=
  {| exec_Output := fun _ _ => runc;
     exec_CombinedOutput := fun _ argv =>
       if bool_decide (Exists (fun pid => argv = lsof_argv pid) gone)
       then Err (ext_error "exit status 1") else Ok lsof_text;
     os_ReadFile := fun _ path =>
       if bool_decide (Exists (fun pid => path = proc_path pid "/mounts") pids)
       then Ok mounts_text
       else if bool_decide (Exists (fun pid => path = proc_path pid "/attr/current") pids)
       then Ok "docker-default (enforce)"
       else Ok netdev_text;
     net_ConnectionsPid := fun _ _ _ =>
       Ok [ {| cs_Status := "LISTEN"; cs_LaddrPort := 80 |};
            {| cs_Status := "ESTABLISHED"; cs_LaddrPort := 51234 |} ];
     process_NewProcess := fun _ _ => None;
     process_Times := fun _ _ => Ok {| ts_User := 1.5%float; ts_System := 0.5%float |};
     process_Cmdline := fun _ _ => Ok " nginx -g daemon off; ";
     process_Environ := fun _ _ => Ok ["PATH=/usr/bin"];
     process_MemoryInfo := fun _ _ =>
       Ok {| mi_RSS := 1000; mi_VMS := 2000; mi_Swap := 4096 |};
     json_Unmarshal := fun out =>
       if String.eqb out "[100]" then Ok [bare 100]
       else if String.eqb out "[100,200]" then Ok [bare 100; bare 200]
       else if String.eqb out "[100,200,300]" then Ok [bare 100; bare 200; bare 300]
       else Err (ext_error "invalid character");
     time_Parse := fun _ _ => Ok 0;
     time_Format := fun _ _ => "01-Oct-2023-10:00 AM";
     latency := fun _ => 1000000;
     range_rank := fun _ _ => 0%nat |}.

(** Some instant of the year 2023, in nanoseconds from Go's zero time. *)
Definition noon : Time := 63831852000 * Second.

(** The machine at start-up: nothing cached, never refreshed. *)
Definition fresh_start : Machine :=
  {| containerCache := ∅; lastRefreshed := 0; clock := noon; trace := [] |}.

(** A machine whose cache holds the containers of process ids 100 and 200
    and was refreshed [age] nanoseconds ago. *)
Definition cached (age : Z) : Machine :=
  {| containerCache := <["200" := bare 200]> (<["100" := bare 100]> ∅);
     lastRefreshed := noon - age; clock := noon; trace := [] |}.

End Scenario.

(** ** More of the sources: the network interfaces and the details view *)

(** [strings.Contains]. *)
Fixpoint Contains (s substr : string) : bool :=
  String.prefix substr s
  || match s with
     | EmptyString => false
     | String _ r => Contains r substr
     end.

(** One iteration of the loop of [getContainerNetworkInterfaces] over the
    lines of the output, on the map [info]. *)
Definition interfaces_step (info : gmap string string) (line : string)
    : gmap string string :=
  if Contains line "inet " then
    let fields := Fields line in
    if (1 <? length fields)%nat
    then <[nth 0 fields "" := nth 1 fields ""]> info
    else info
  else info.

Definition nsenter_argv (pid : Z) : list string :=
  ["sudo"; "nsenter"; "-t"; Itoa pid; "-n"; "ifconfig"].

Definition getContainerNetworkInterfaces (E : Env) (c : Container) : M (gmap string string) :=
  out <- external E (EvExec (nsenter_argv (PID c)))
           (fun t => exec_Output E t (nsenter_argv (PID c))) ;;
  ret (fold_left interfaces_step (Split newline out) ∅).

(** The text of the cell of a table at [row] and [column]; the table
    widget answers an empty cell outside the table. *)
Definition GetCell (table : list (list string)) (row column : nat) : string :=
  nth column (nth row table []) "".

(** [updateDetails] with [row] selected: the container it hands to
    [showDetails], if it hands one. *)
Definition updateDetails (table : list (list string)) (row : nat) (m : Machine)
    : option Container :=
  containerCache m !! GetCell table row 0.

(** ** Reference descriptions, continued *)

(** No byte of [s] is [sep]. *)
Definition no_sep (sep : ascii) (s : string) : bool :=
  forallb (fun c => negb (Ascii.eqb c sep)) (list_ascii_of_string s).

(** The value of a decimal numeral read after the value [acc]. *)
Fixpoint uint_val (acc : Z) (d : Decimal.uint) : Z :=
  match d with
  | Decimal.Nil => acc
  | Decimal.D0 l => uint_val (acc * 10) l
  | Decimal.D1 l => uint_val (acc * 10 + 1) l
  | Decimal.D2 l => uint_val (acc * 10 + 2) l
  | Decimal.D3 l => uint_val (acc * 10 + 3) l
  | Decimal.D4 l => uint_val (acc * 10 + 4) l
  | Decimal.D5 l => uint_val (acc * 10 + 5) l
  | Decimal.D6 l => uint_val (acc * 10 + 6) l
  | Decimal.D7 l => uint_val (acc * 10 + 7) l
  | Decimal.D8 l => uint_val (acc * 10 + 8) l
  | Decimal.D9 l => uint_val (acc * 10 + 9) l
  end.

(** The container that a store of [containers] leaves under the key [k]:
    the last of them whose process id prints as [k]. *)
Definition stored_under (k : string) (containers : list Container) : option Container :=
  last (filter (fun c => Itoa (PID c) = k) containers).

(** The mount point a mounts entry of the given fields contributes. *)
Definition row_mount_point (row : list string) : option string :=
  if (2 <? length row)%nat then Some (nth 1 row "") else None.

(** The text of a table of space-separated fields, one row a line. *)
Definition render_table (rows : list (list string)) : string :=
  Join newline (map (Join " ") rows).

(** The address an output line of the interface tool contributes under
    the key [k]. *)
Definition inet_entry (k : string) (line : string) : option string :=
  if Contains line "inet " && (1 <? length (Fields line))%nat
     && String.eqb (nth 0 (Fields line) "") k
  then Some (nth 1 (Fields line) "") else None.

(** The fields of a [Container] that no adapter fills: what Discovery
    decoded, the top processes and the resource limits. *)
Definition same_identity (c c' : Container) : Prop :=
  OciVersion c' = OciVersion c /\ ID c' = ID c /\ PID c' = PID c
  /\ Status c' = Status c /\ Bundle c' = Bundle c /\ RootFS c' = RootFS c
  /\ Created c' = Created c /\ Annotations c' = Annotations c /\ Owner c' = Owner c
  /\ TopProcesses c' = TopProcesses c /\ ResourceLimits_ c' = ResourceLimits_ c.

(** The values of the [p] lines that a state of the open-files loop has
    taken in: those of the flushed entries and that of the entry being
    accumulated. *)
Definition record_pids (st : Lsof.loop_state) : list string :=
  map lsof_PID st.1 ++ (if String.eqb (lsof_PID st.2) "" then [] else [lsof_PID st.2]).


(** ** More scenarios *)

Module Scenario2.

(** The node [E] with another decoder of the listing and another parser of
    times. *)
Definition with_decoder_and_parser (E : Env)
    (decode : string -> Result (list Container))
    (parse : string -> string -> Result Time) : Env :=
  {| exec_Output := exec_Output E;
     exec_CombinedOutput := exec_CombinedOutput E;
     os_ReadFile := os_ReadFile E;
     net_ConnectionsPid := net_ConnectionsPid E;
     process_NewProcess := process_NewProcess E;
     process_Times := process_Times E;
     process_Cmdline := process_Cmdline E;
     process_Environ := process_Environ E;
     process_MemoryInfo := process_MemoryInfo E;
     json_Unmarshal := decode;
     time_Parse := parse;
     time_Format := time_Format E;
     latency := latency E;
     range_rank := range_rank E |}.


(** A parser that reads the one creation time of [Scenario.bare] and
    refuses every other text. *)
Definition strict_parse (layout value : string) : Result Time :=
  if String.eqb value "2023-10-01T10:00:00.000000000Z" then Ok 0
  else Err (ext_error "parsing time: cannot parse").


(** The node of [Scenario.env] listing the container 100, with that
    parser. *)
Definition strict_env_100 : Env :=
  with_decoder_and_parser (Scenario.env (Ok "[100]") [])
    (fun _ => Ok [Scenario.bare 100]) strict_parse.

End Scenario2.

(** * Properties *)

(** ** Strings *)

Lemma Split_no_sep (sep : ascii) (s : string) :
  (forall c, In c (list_ascii_of_string s) -> c <> sep) -> Split sep s = [s].
Proof.
  induction s as [|c r IH]; intros H; simpl; [reflexivity|].
  destruct (Ascii.eqb_spec c sep) as [->|_].
  - exfalso. apply (H sep); [now left | reflexivity].
  - rewrite IH; [reflexivity|]. intros c' Hc'. apply H. now right.
Qed.

Lemma Split_nonempty (sep : ascii) (s : string) : Split sep s <> [].
Proof.
  destruct s as [|c r]; simpl; [discriminate|].
  destruct (Ascii.eqb c sep); [discriminate|].
  destruct (Split sep r); discriminate.
Qed.

Lemma Split_append (sep : ascii) (l rest : string) :
  (forall c, In c (list_ascii_of_string l) -> c <> sep) ->
  Split sep (String.append l (String sep rest)) = l :: Split sep rest.
Proof.
  induction l as [|c r IH]; intros H; simpl.
  - rewrite Ascii.eqb_refl. reflexivity.
  - destruct (Ascii.eqb_spec c sep) as [->|_].
    + exfalso. apply (H sep); [now left | reflexivity].
    + rewrite IH; [reflexivity|]. intros c' Hc'. apply H. now right.
Qed.

Lemma no_newline_spec (s : string) :
  LsofSpec.no_newline s = true ->
  forall c, In c (list_ascii_of_string s) -> c <> newline.
Proof.
  induction s as [|a r IH]; simpl; intros H c Hc; [contradiction|].
  apply andb_true_iff in H as [Ha Hr].
  destruct Hc as [<-|Hc]; [|now apply IH].
  intros ->. rewrite Ascii.eqb_refl in Ha. discriminate.
Qed.

(** Splitting the joined lines gives the lines back. *)
Lemma Split_Join (ls : list string) :
  ls <> [] -> Forall (fun l => LsofSpec.no_newline l = true) ls ->
  Split newline (Join newline ls) = ls.
Proof.
  induction ls as [|l rest IH]; intros Hne Hall; [congruence|].
  inversion Hall as [|? ? Hl Hrest]; subst.
  destruct rest as [|l' rest'].
  - simpl. apply Split_no_sep, no_newline_spec, Hl.
  - change (Join newline (l :: l' :: rest'))
      with (String.append l (String newline (Join newline (l' :: rest')))).
    rewrite Split_append by (apply no_newline_spec, Hl).
    rewrite IH; [reflexivity | discriminate | assumption].
Qed.

(** ** The open-files parser *)

Section LsofFacts.

Import LsofSpec.

Lemma step_short (st : Lsof.loop_state) (line : string) :
  (String.length line <= 1)%nat -> Lsof.step st line = st.
Proof.
  destruct st as [entries entry].
  destruct line as [|t [|a s]]; simpl; intros H; [reflexivity | reflexivity | lia].
Qed.

(** A line that is no [p] line leaves [entries] alone and overwrites in
    [entry] the one field its tag names. *)
Lemma step_body_line (entries : list LsofOutput) (e : LsofOutput) (l : string) :
  tagged "p" l = None ->
  Lsof.step (entries, e) l =
  (entries,
   {| Command := default (Command e) (tagged "c" l); lsof_PID := lsof_PID e;
      User := default (User e) (tagged "u" l); FD := default (FD e) (tagged "f" l);
      Type_ := default (Type_ e) (tagged "t" l);
      Device := default (Device e) (tagged "D" l);
      SizeOff := default (SizeOff e) (tagged "s" l);
      Node := default (Node e) (tagged "i" l);
      Name := default (Name e) (tagged "n" l) |}).
Proof.
  destruct e. destruct l as [|t [|a s]]; [reflexivity | reflexivity |].
  destruct t as [[] [] [] [] [] [] [] []]; intros H; try discriminate H; reflexivity.
Qed.

Lemma default_last_omap (f : string -> option string) (d l : string) (body : list string) :
  default (default d (f l)) (last (omap f body)) = default d (last (omap f (l :: body))).
Proof.
  change (omap f (l :: body))
    with (match f l with Some y => y :: omap f body | None => omap f body end).
  destruct (f l) as [v|]; cbn [default]; [|reflexivity].
  rewrite last_cons. destruct (last (omap f body)); reflexivity.
Qed.

Lemma fold_body (body : list string) :
  forall (entries : list LsofOutput) (e : LsofOutput),
  forallb (fun l => no_newline l && bool_decide (tagged "p" l = None)) body = true ->
  fold_left Lsof.step body (entries, e) =
  (entries,
   {| Command := default (Command e) (last (omap (tagged "c") body));
      lsof_PID := lsof_PID e;
      User := default (User e) (last (omap (tagged "u") body));
      FD := default (FD e) (last (omap (tagged "f") body));
      Type_ := default (Type_ e) (last (omap (tagged "t") body));
      Device := default (Device e) (last (omap (tagged "D") body));
      SizeOff := default (SizeOff e) (last (omap (tagged "s") body));
      Node := default (Node e) (last (omap (tagged "i") body));
      Name := default (Name e) (last (omap (tagged "n") body)) |}).
Proof.
  induction body as [|l body IH]; intros entries e H.
  - destruct e; reflexivity.
  - cbn [forallb] in H. apply andb_true_iff in H as [Hl Hbody].
    apply andb_true_iff in Hl as [_ Hp]. apply bool_decide_eq_true in Hp.
    cbn [fold_left]. rewrite (step_body_line _ _ _ Hp), (IH _ _ Hbody).
    cbn [Command lsof_PID User FD Type_ Device SizeOff Node Name].
    rewrite !default_last_omap. reflexivity.
Qed.

Lemma fold_group (g : group) (entries : list LsofOutput) (e : LsofOutput) :
  well_formed g = true ->
  (lsof_PID e = "" -> e = zero_LsofOutput) ->
  fold_left Lsof.step (group_lines g) (entries, e) = (entries ++ pending e, record_of g).
Proof.
  unfold well_formed, group_lines. destruct g as [pid body]. cbn [g_pid g_body].
  intros H He. apply andb_true_iff in H as [H Hbody]. apply andb_true_iff in H as [Hpid _].
  destruct pid as [|a s]; [discriminate Hpid|].
  cbn [fold_left]. unfold pending.
  assert (Lsof.step (entries, e) (String "p" (String a s)) =
          (entries ++ (if String.eqb (lsof_PID e) "" then [] else [e]),
           Lsof.set_PID (String a s) zero_LsofOutput)) as ->.
  { cbn. destruct (String.eqb_spec (lsof_PID e) "") as [Hz|_]; cbn.
    - rewrite (He Hz), app_nil_r. reflexivity.
    - reflexivity. }
  rewrite (fold_body _ _ _ Hbody). reflexivity.
Qed.

Lemma record_of_pid (g : group) :
  well_formed g = true -> String.eqb (lsof_PID (record_of g)) "" = false.
Proof.
  unfold well_formed. intros H. apply andb_true_iff in H as [H _].
  apply andb_true_iff in H as [H _]. cbn. now apply negb_true_iff in H.
Qed.

Lemma fold_groups (gs : list group) :
  forall (entries : list LsofOutput) (e : LsofOutput),
  forallb well_formed gs = true ->
  (lsof_PID e = "" -> e = zero_LsofOutput) ->
  Lsof.flush (fold_left Lsof.step (concat (map group_lines gs)) (entries, e)) =
  entries ++ pending e ++ map record_of gs.
Proof.
  induction gs as [|g gs IH]; intros entries e Hwf He.
  - cbn. unfold pending. destruct (String.eqb (lsof_PID e) ""); cbn.
    + now rewrite app_nil_r.
    + reflexivity.
  - cbn [forallb] in Hwf. apply andb_true_iff in Hwf as [Hg Hgs].
    change (concat (map group_lines (g :: gs)))
      with (group_lines g ++ concat (map group_lines gs)).
    rewrite fold_left_app, (fold_group _ _ _ Hg He), (IH _ _ Hgs).
    + unfold pending at 2. rewrite (record_of_pid _ Hg), <- app_assoc. reflexivity.
    + intros Hz. pose proof (record_of_pid _ Hg) as Hp. rewrite Hz in Hp. discriminate.
Qed.

Lemma group_lines_no_newline (gs : list group) :
  forallb well_formed gs = true ->
  Forall (fun l => no_newline l = true) (concat (map group_lines gs)).
Proof.
  induction gs as [|g gs IH]; intros Hwf; [constructor|].
  cbn [forallb] in Hwf. apply andb_true_iff in Hwf as [Hg Hgs].
  cbn [map concat]. apply Forall_app. split; [|now apply IH].
  unfold well_formed in Hg. apply andb_true_iff in Hg as [Hg Hbody].
  apply andb_true_iff in Hg as [_ Hpid].
  unfold group_lines. constructor; [exact Hpid|].
  apply Forall_forall. intros l Hl.
  rewrite forallb_forall in Hbody. specialize (Hbody l).
  rewrite <- list_elem_of_In in Hbody. specialize (Hbody Hl).
  now apply andb_true_iff in Hbody as [? _].
Qed.

Lemma parse_render (gs : list group) :
  forallb well_formed gs = true -> Lsof.parse (render gs) = map record_of gs.
Proof.
  intros Hwf. unfold Lsof.parse, render.
  destruct gs as [|g gs'] eqn:Egs; [reflexivity|]. rewrite <- Egs in *.
  rewrite Split_Join.
  - rewrite fold_groups; [reflexivity | assumption | reflexivity].
  - subst gs. discriminate.
  - now apply group_lines_no_newline.
Qed.

End LsofFacts.

(** C5. For a well-formed block of N [p] groups the open-files parser
    returns exactly N records, the i-th with the value of the i-th group's
    [p] line as its PID and, in each other field, the value of the group's
    (last) line carrying the field's tag (c, u, f, t, D, s, i, n), empty
    when the group has none; the record of the last group, which no [p]
    line follows, is returned too; and a line of at most one byte changes
    nothing. *)
Theorem lsof_parse_groups (gs : list LsofSpec.group) :
  forallb LsofSpec.well_formed gs = true ->
  Lsof.parse (LsofSpec.render gs) = map LsofSpec.record_of gs
  /\ length (Lsof.parse (LsofSpec.render gs)) = length gs
  /\ (forall gs' g, gs = gs' ++ [g] ->
        last (Lsof.parse (LsofSpec.render gs)) = Some (LsofSpec.record_of g))
  /\ (forall st line, (String.length line <= 1)%nat -> Lsof.step st line = st).
Proof.
  intros Hwf. rewrite (parse_render _ Hwf). repeat split.
  - now rewrite length_map.
  - intros gs' g ->. rewrite map_app. cbn [map]. apply last_snoc.
  - apply step_short.
Qed.

(** ** The network-usage parser *)

Section NetDevFacts.

Import NetDevSpec.

Lemma int64_add_l (a b : Z) : int64 (int64 a + b) = int64 (a + b).
Proof.
  unfold int64.
  replace ((a + 2 ^ 63) mod 2 ^ 64 - 2 ^ 63 + b + 2 ^ 63)
    with ((a + 2 ^ 63) mod 2 ^ 64 + b) by ring.
  rewrite Zplus_mod_idemp_l. f_equal. f_equal. ring.
Qed.

Lemma int64_in_range (z : Z) : in_int64 z = true -> int64 z = z.
Proof.
  unfold in_int64, int64. intros H. apply andb_true_iff in H as [Hlo Hhi].
  apply Z.leb_le in Hlo, Hhi. rewrite Z.mod_small; lia.
Qed.

Lemma nth_lookup_string (fs : list string) (i : nat) (f : string) :
  fs !! i = Some f -> nth i fs "" = f.
Proof.
  revert i. induction fs as [|x fs IH]; intros [|i] H; try discriminate H.
  - now injection H.
  - now apply IH.
Qed.

(** One iteration of the loop, in the words of [counted] and [field]. *)
Lemma step_counted (r t : Z) (line : string) :
  NetDev.step (r, t) line =
  if counted line
  then (int64 (r + default 0 (field 2 line)), int64 (t + default 0 (field 10 line)))
  else (r, t).
Proof.
  unfold NetDev.step, counted, field. cbn [Nat.sub].
  destruct (Nat.ltb_spec 10 (length (Fields line))) as [Hlen|Hlen].
  - replace (11 <=? length (Fields line))%nat with true
      by (symmetry; apply Nat.leb_le; lia).
    destruct (Fields line !! 1%nat) as [f1|] eqn:E1.
    2:{ apply lookup_ge_None in E1. lia. }
    destruct (Fields line !! 9%nat) as [f9|] eqn:E9.
    2:{ apply lookup_ge_None in E9. lia. }
    rewrite (nth_lookup_string _ _ _ E1), (nth_lookup_string _ _ _ E9).
    destruct (Atoi f1) as [v1|e1]; [|reflexivity].
    destruct (Atoi f9) as [v9|e9]; reflexivity.
  - replace (11 <=? length (Fields line))%nat with false
      by (symmetry; apply Nat.leb_gt; lia).
    reflexivity.
Qed.

Lemma sum_field_cons (i : nat) (l : string) (lines : list string) :
  sum_field i (l :: lines) =
  if counted l then default 0 (field i l) + sum_field i lines else sum_field i lines.
Proof.
  unfold sum_field. rewrite filter_cons.
  destruct (counted l); [rewrite decide_True by reflexivity | rewrite decide_False by discriminate];
    reflexivity.
Qed.

Lemma fold_step_sums (lines : list string) :
  forall r t : Z,
  fold_left NetDev.step lines (int64 r, int64 t) =
  (int64 (r + sum_field 2 lines), int64 (t + sum_field 10 lines)).
Proof.
  induction lines as [|l lines IH]; intros r t.
  - cbn. now rewrite !Z.add_0_r.
  - cbn [fold_left]. rewrite step_counted, !sum_field_cons.
    destruct (counted l).
    + rewrite !int64_add_l, IH, !Z.add_assoc. reflexivity.
    + apply IH.
Qed.

End NetDevFacts.

(** C6 (as amended). For every text, the network-usage parser returns, for
    the received and for the transmitted bytes, the sum over exactly the
    lines with at least 11 white-space-separated fields whose 2nd and 10th
    fields are integers, of the 2nd and of the 10th field, taken in Go's
    64-bit [int] (the sum modulo 2^64); it is the sum itself whenever that
    fits [int].  No other line contributes. *)
Theorem netdev_parse_sums (content : string) :
  let lines := Split newline content in
  ReceivedBytes (NetDev.parse content) = int64 (NetDevSpec.sum_field 2 lines)
  /\ TransmittedBytes (NetDev.parse content) = int64 (NetDevSpec.sum_field 10 lines)
  /\ (in_int64 (NetDevSpec.sum_field 2 lines) = true ->
      ReceivedBytes (NetDev.parse content) = NetDevSpec.sum_field 2 lines)
  /\ (in_int64 (NetDevSpec.sum_field 10 lines) = true ->
      TransmittedBytes (NetDev.parse content) = NetDevSpec.sum_field 10 lines).
Proof.
  intros lines. unfold NetDev.parse. fold lines.
  change (0, 0) with (int64 0, int64 0). rewrite fold_step_sums. cbn.
  repeat split; try reflexivity; intros H; now apply int64_in_range.
Qed.

(** A header line, a malformed line and one well-formed line: the result is
    the well-formed line's two values. *)
Example netdev_header_malformed_wellformed :
  NetDev.parse
    (Join newline
       ["Inter-|   Receive                    |  Transmit";
        "  eth1: 77 garbage";
        "  eth0: 1500 10 0 0 0 0 0 0 2500 20 0 0 0 0 0 0"])
  = {| ReceivedBytes := 1500; TransmittedBytes := 2500 |}.
Proof. vm_compute. reflexivity. Qed.

(** C6, as stated, fails where the total leaves [int]: two interfaces at
    2^63 - 1 received bytes each are reported as -2 received bytes. *)
Lemma netdev_sum_wraps :
  let content :=
    Join newline
      ["  eth0: 9223372036854775807 1 0 0 0 0 0 0 5 1 0 0 0 0 0 0";
       "  eth1: 9223372036854775807 1 0 0 0 0 0 0 7 1 0 0 0 0 0 0"] in
  NetDevSpec.sum_field 2 (Split newline content) = 18446744073709551614
  /\ ReceivedBytes (NetDev.parse content) = -2
  /\ TransmittedBytes (NetDev.parse content) = 12.
Proof. vm_compute. repeat split; reflexivity. Qed.

(** ** The assembler *)

Section AssemblerFacts.

Variable E : Env.

Lemma populate_calls_app (tr tr' : list Event) :
  populate_calls (tr ++ tr') = populate_calls tr ++ populate_calls tr'.
Proof. apply omap_app. Qed.

Lemma adapter_calls_app (tr tr' : list Event) :
  adapter_calls (tr ++ tr') = adapter_calls tr ++ adapter_calls tr'.
Proof. apply omap_app. Qed.

(** Unfolds an adapter down to the answers of the world and splits on
    them. *)
Ltac crunch H :=
  cbv [run_adapter assign getOpenFiles getContainerNetworkUsage
       getContainerMountedVolumes getContainerExposedPorts
       getContainerStartCommand getContainerSecurityProfiles
       getEnvironmentVariables getContainerResourceUsage getContainerCPUUsage
       getContainerMemoryDetails NewProcess bind ret wrapping external enter emit] in H;
  cbn [containerCache lastRefreshed clock trace] in H;
  repeat match type of H with
         | context [match ?x with _ => _ end] =>
             lazymatch x with
             | context [match _ with _ => _ end] => fail
             | _ => destruct x eqn:?; cbv beta iota in H
             end
         end;
  inversion H; subst; clear H;
  cbn [containerCache lastRefreshed trace PID set_OpenFiles set_NetworkUsage
       set_MountedVolumes set_ExposedPorts set_StartCommand set_SecurityProfiles
       set_EnvVariables set_ResourceUsage];
  rewrite ?populate_calls_app, ?adapter_calls_app; cbn [populate_calls adapter_calls omap list_omap];
  rewrite ?app_nil_r, <- ?app_assoc.

(** An adapter touches neither the cache nor the container's process id,
    and its call is the one call it adds to the trace. *)
Lemma run_adapter_footprint (a : Adapter) (c c' : Container) (err : option error)
    (m m' : Machine) :
  run_adapter E a c m = ((c', err), m') ->
  containerCache m' = containerCache m /\ lastRefreshed m' = lastRefreshed m
  /\ PID c' = PID c
  /\ adapter_calls (trace m') = adapter_calls (trace m) ++ [(a, PID c)]
  /\ populate_calls (trace m') = populate_calls (trace m).
Proof.
  intros H. destruct a; crunch H; repeat split; reflexivity.
Qed.

Lemma sequential_footprint (adapters : list Adapter) (c c' : Container)
    (log : list (Adapter * option error)) (m m' : Machine) :
  sequential E adapters c m log c' m' ->
  containerCache m' = containerCache m /\ lastRefreshed m' = lastRefreshed m
  /\ PID c' = PID c
  /\ adapter_calls (trace m') = adapter_calls (trace m) ++ map (fun x => (x.1, PID c)) log
  /\ populate_calls (trace m') = populate_calls (trace m).
Proof.
  induction 1 as [c m | a rest c m c1 m1 log c2 m2 Hrun _ IH | a rest c m c1 e m1 Hrun].
  - repeat split; try reflexivity. cbn. now rewrite app_nil_r.
  - apply run_adapter_footprint in Hrun as (Hc & Hl & Hp & Ha & Hq).
    destruct IH as (Hc' & Hl' & Hp' & Ha' & Hq').
    repeat split; try congruence.
    rewrite Ha', Ha, Hp, <- app_assoc. reflexivity.
  - apply run_adapter_footprint in Hrun as (Hc & Hl & Hp & Ha & Hq).
    repeat split; assumption.
Qed.

(** A sequential run either runs every adapter without an error or stops
    behind the first that fails. *)
Lemma sequential_shape (adapters : list Adapter) (c c' : Container)
    (log : list (Adapter * option error)) (m m' : Machine) :
  sequential E adapters c m log c' m' ->
  log = map (fun a => (a, None)) adapters
  \/ exists done a skipped e,
       adapters = done ++ a :: skipped
       /\ log = map (fun a => (a, None)) done ++ [(a, Some e)].
Proof.
  induction 1 as [c m | a rest c m c1 m1 log c2 m2 Hrun _ IH | a rest c m c1 e m1 Hrun].
  - now left.
  - destruct IH as [-> | (done & b & skipped & e & -> & ->)].
    + now left.
    + right. exists (a :: done), b, skipped, e. split; reflexivity.
  - right. exists [], a, rest, e. split; reflexivity.
Qed.

Ltac run_step :=
  cbv [run_adapter assign];
  match goal with
  | H : _ = (_, _) |- _ => rewrite H; cbn [zero_or err_of]; reflexivity
  end.

(** [PopulateContainer] is the sequential run of the eight adapters in
    their order; its error is the wrapped error of the adapter that
    stopped the run. *)
Lemma PopulateContainer_log (c : Container) (m : Machine) :
  exists log,
    sequential E enrichment_order c (enter (EvPopulate (PID c)) m).2 log
      (PopulateContainer E c m).1.1 (PopulateContainer E c m).2
    /\ (PopulateContainer E c m).1.2 =
       match last log with
       | Some (a, Some e) => Some (fmt_Errorf (adapter_message a) e)
       | _ => None
       end.
Proof.
  unfold PopulateContainer, enrichment_order.
  set (m0 := (enter (EvPopulate (PID c)) m).2).
  repeat match goal with
         | |- context [let '(_, _) := ?f E ?c0 ?m1 in _] =>
             let H := fresh "H" in
             destruct (f E c0 m1) as [[?|?] ?] eqn:H; cbn [err_of zero_or]
         end;
    (eexists; split;
     [ cbn [fst snd];
       repeat first [ eapply seq_abort; run_step
                    | eapply seq_ok; [run_step|]
                    | apply seq_none ]
     | reflexivity ]).
Qed.

(** The resource usage an adapter run returns never has a swap figure. *)
Lemma getContainerResourceUsage_swap (c : Container) (usage : ResourceUsage)
    (m m' : Machine) :
  getContainerResourceUsage E c m = (Ok usage, m') ->
  SwapUsage usage = 0
  /\ is_Some (MemoryUsage usage !! "RSS") /\ is_Some (MemoryUsage usage !! "VMS").
Proof.
  intros H.
  cbv [getContainerResourceUsage getContainerCPUUsage getContainerMemoryDetails
       NewProcess bind ret wrapping external enter emit] in H.
  cbn [containerCache lastRefreshed clock trace] in H.
  repeat match type of H with
         | context [match ?x with _ => _ end] =>
             lazymatch x with
             | context [match _ with _ => _ end] => fail
             | _ => destruct x eqn:?; cbv beta iota in H
             end
         end;
    inversion H; subst; clear H; cbn [SwapUsage MemoryUsage].
  split; [reflexivity|]. split; eexists; reflexivity.
Qed.

End AssemblerFacts.

(** C7. [PopulateContainer] runs the adapters one after the other in the
    fixed order of [enrichment_order].  Either all eight are called, none
    returns an error, and it returns nil; or it stops behind the first
    adapter [a] that returns an error [e]: the adapters called are those
    up to [a] and none of the remaining ones, and it returns the error
    that wraps [e] under the message naming [a]'s step. *)
Theorem PopulateContainer_fail_fast (E : Env) (c : Container) (m : Machine) :
  let started := (enter (EvPopulate (PID c)) m).2 in
  let '((c', err), m') := PopulateContainer E c m in
  (err = None
   /\ sequential E enrichment_order c started
        (map (fun a => (a, None)) enrichment_order) c' m'
   /\ adapter_calls (trace m') =
      adapter_calls (trace m) ++ map (fun a => (a, PID c)) enrichment_order)
  \/ (exists done a skipped e,
        enrichment_order = done ++ a :: skipped
        /\ sequential E enrichment_order c started
             (map (fun a => (a, None)) done ++ [(a, Some e)]) c' m'
        /\ err = Some (fmt_Errorf (adapter_message a) e)
        /\ adapter_calls (trace m') =
           adapter_calls (trace m) ++ map (fun a => (a, PID c)) (done ++ [a])).
Proof.
  intros started.
  destruct (PopulateContainer_log E c m) as (log & Hseq & Herr).
  destruct (PopulateContainer E c m) as [[c' err] m']. cbn [fst snd] in Hseq, Herr.
  fold started in Hseq.
  pose proof (sequential_footprint _ _ _ _ _ _ _ Hseq) as (_ & _ & _ & Hcalls & _).
  assert (adapter_calls (trace started) = adapter_calls (trace m)) as Hstart.
  { subst started. cbn. rewrite adapter_calls_app. cbn. apply app_nil_r. }
  rewrite Hstart in Hcalls.
  destruct (sequential_shape _ _ _ _ _ _ _ Hseq)
    as [-> | (done & a & skipped & e & Horder & ->)].
  - left. split; [exact Herr|]. split; [exact Hseq|].
    rewrite Hcalls, map_map. reflexivity.
  - right. exists done, a, skipped, e. split; [exact Horder|]. split; [exact Hseq|].
    rewrite last_snoc in Herr. split; [exact Herr|].
    rewrite Hcalls, !map_app, map_map. reflexivity.
Qed.

(** The messages of the steps, as the sources spell them. *)
Example adapter_messages :
  map adapter_message enrichment_order =
  ["failed to get open files"; "failed to get network usage";
   "failed to get mounted volumes"; "failed to get exposed ports";
   "failed to get start command"; "failed to get security profiles";
   "failed to get environment variables"; "failed to get resource usage"].
Proof. reflexivity. Qed.

(** ** Discovery and the cache *)

Section CacheFacts.

Variable E : Env.

(** [PopulateContainer] leaves the cache and its timestamp alone, and its
    own call is the one call of [PopulateContainer] it adds to the trace. *)
Lemma PopulateContainer_footprint (c c' : Container) (err : option error)
    (m m' : Machine) :
  PopulateContainer E c m = ((c', err), m') ->
  containerCache m' = containerCache m /\ lastRefreshed m' = lastRefreshed m
  /\ PID c' = PID c
  /\ populate_calls (trace m') = populate_calls (trace m) ++ [PID c].
Proof.
  intros H. destruct (PopulateContainer_log E c m) as (log & Hseq & _).
  rewrite H in Hseq. cbn [fst snd] in Hseq.
  apply sequential_footprint in Hseq as (Hc & Hl & Hp & _ & Hq).
  repeat split; try assumption.
  rewrite Hq. cbn. rewrite populate_calls_app. reflexivity.
Qed.

Lemma populate_all_ok (containers : list Container) :
  forall (m m' : Machine) (populated : list Container),
  populate_all E containers m = (Ok populated, m') ->
  containerCache m' = containerCache m /\ lastRefreshed m' = lastRefreshed m
  /\ map PID populated = map PID containers
  /\ populate_calls (trace m') = populate_calls (trace m) ++ map PID containers.
Proof.
  induction containers as [|c rest IH]; intros m m' populated H.
  - inversion H; subst. repeat split; try reflexivity. cbn. now rewrite app_nil_r.
  - cbn [populate_all] in H.
    destruct (PopulateContainer E c m) as [[c' [err|]] m1] eqn:Hc; [discriminate H|].
    apply PopulateContainer_footprint in Hc as (Hcache & Hlast & Hpid & Hcalls).
    unfold bind, ret in H.
    destruct (populate_all E rest m1) as [[rest'|e] m2] eqn:Hrest; [|discriminate H].
    inversion H; subst. apply IH in Hrest as (Hcache' & Hlast' & Hpids & Hcalls').
    repeat split; try congruence.
    + cbn. congruence.
    + rewrite Hcalls', Hcalls, <- app_assoc. reflexivity.
Qed.

(** The loop stops at the first container whose population fails. *)
Lemma populate_all_abort (pre : list Container) :
  forall (c c' : Container) (post pre' : list Container) (err : error)
         (m m2 m3 : Machine),
  populate_all E pre m = (Ok pre', m2) ->
  PopulateContainer E c m2 = ((c', Some err), m3) ->
  populate_all E (pre ++ c :: post) m = (Err err, m3).
Proof.
  induction pre as [|p pre IH]; intros c c' post pre' err m m2 m3 Hpre Hc.
  - inversion Hpre; subst. cbn. now rewrite Hc.
  - cbn [populate_all app] in *.
    destruct (PopulateContainer E p m) as [[p' [e|]] m1]; [discriminate Hpre|].
    unfold bind, ret in *.
    destruct (populate_all E pre m1) as [[pre1|e] m1'] eqn:Hrest; [|discriminate Hpre].
    inversion Hpre; subst.
    now rewrite (IH _ _ post _ _ _ _ _ Hrest Hc).
Qed.

(** What [GetContainers] does when the cache is not fresh and the listing
    decodes. *)
Lemma GetContainers_stale (populate : bool) (m : Machine) (out : string)
    (containers : list Container) :
  10 * Second <= time_Since m (lastRefreshed m) ->
  exec_Output E (clock m) runc_argv = Ok out ->
  out <> "" ->
  json_Unmarshal E out = Ok containers ->
  GetContainers E populate m =
  (containers <- (if populate then populate_all E containers else ret containers) ;;
   fun m => (Ok containers, set_cache (store_all containers ∅) (clock m) m))
    (emit E (EvExec runc_argv) m).
Proof.
  intros Hstale Hout Hne Hjson. unfold GetContainers.
  apply Z.ltb_ge in Hstale. rewrite Hstale.
  unfold bind at 1. unfold wrapping at 1. unfold external. rewrite Hout.
  destruct out as [|a s]; [congruence|]. cbn [String.length Nat.eqb].
  unfold bind at 1. unfold wrapping. rewrite Hjson. reflexivity.
Qed.

Lemma GetContainers_fresh (populate : bool) (m : Machine) :
  time_Since m (lastRefreshed m) < 10 * Second ->
  GetContainers E populate m = (Ok (range_values E m), m).
Proof.
  intros Hfresh. unfold GetContainers. apply Z.ltb_lt in Hfresh. now rewrite Hfresh.
Qed.

End CacheFacts.

(** C1. When the cache is not fresh, the listing decodes to the
    containers [pre ++ c :: post], population succeeds for those of [pre]
    and fails for [c] with [err], then [GetContainers(true)] returns
    [err]; the cache map and the last-refresh timestamp are what they were
    before the call; and [PopulateContainer] was called for the containers
    of [pre] and for [c], and for none of [post]. *)
Theorem GetContainers_populate_failure (E : Env) (m : Machine) (out : string)
    (pre post pre' : list Container) (c c' : Container) (err : error)
    (m2 m3 : Machine) :
  10 * Second <= time_Since m (lastRefreshed m) ->
  exec_Output E (clock m) runc_argv = Ok out ->
  out <> "" ->
  json_Unmarshal E out = Ok (pre ++ c :: post) ->
  populate_all E pre (emit E (EvExec runc_argv) m) = (Ok pre', m2) ->
  PopulateContainer E c m2 = ((c', Some err), m3) ->
  GetContainers E true m = (Err err, m3)
  /\ containerCache m3 = containerCache m
  /\ lastRefreshed m3 = lastRefreshed m
  /\ populate_calls (trace m3) = populate_calls (trace m) ++ map PID pre ++ [PID c].
Proof.
  intros Hstale Hout Hne Hjson Hpre Hc.
  rewrite (GetContainers_stale E true m out _ Hstale Hout Hne Hjson).
  unfold bind. rewrite (populate_all_abort E _ _ _ post _ _ _ _ _ Hpre Hc).
  apply populate_all_ok in Hpre as (Hcache & Hlast & _ & Hcalls).
  apply PopulateContainer_footprint in Hc as (Hcache' & Hlast' & _ & Hcalls').
  repeat split.
  - rewrite Hcache', Hcache. reflexivity.
  - rewrite Hlast', Hlast. reflexivity.
  - rewrite Hcalls', Hcalls. cbn. rewrite populate_calls_app. cbn.
    rewrite app_nil_r, <- app_assoc. reflexivity.
Qed.

(** C9 (what the code does). After a successful population pass the
    container's resource usage carries the memory usage under "RSS" and
    "VMS", and a swap usage of 0 whatever the process-facts source reports:
    [getContainerResourceUsage] fills [CPUUsage] and [MemoryUsage] and
    never calls [getContainerSwapUsage]. *)
Theorem PopulateContainer_swap_unset (E : Env) (c c' : Container) (m m' : Machine) :
  PopulateContainer E c m = ((c', None), m') ->
  SwapUsage (ResourceUsage_ c') = 0
  /\ is_Some (MemoryUsage (ResourceUsage_ c') !! "RSS")
  /\ is_Some (MemoryUsage (ResourceUsage_ c') !! "VMS").
Proof.
  unfold PopulateContainer.
  repeat match goal with
         | |- context [let '(_, _) := ?f E ?c0 ?m1 in _] =>
             let H := fresh "H" in
             destruct (f E c0 m1) as [[?|?] ?] eqn:H; cbn [err_of zero_or];
             [|intros Habs; discriminate Habs]
         end.
  intros Heq. inversion Heq; subst. cbn [ResourceUsage_ set_ResourceUsage].
  eapply getContainerResourceUsage_swap. eassumption.
Qed.

(** The failing input of C9: the process reports 4096 of swap,
    [getContainerSwapUsage] would return it, and the populated container
    says 0. *)
Lemma PopulateContainer_swap_unset_witness :
  let E := Scenario.env (Ok "[100]") [] in
  let r := PopulateContainer E (Scenario.bare 100) Scenario.fresh_start in
  (r.1.2 = None
   /\ (getContainerSwapUsage E (Scenario.bare 100) Scenario.fresh_start).1 = Ok 4096)
  /\ (SwapUsage (ResourceUsage_ r.1.1) = 0
      /\ is_Some (MemoryUsage (ResourceUsage_ r.1.1) !! "RSS")
      /\ is_Some (MemoryUsage (ResourceUsage_ r.1.1) !! "VMS")).
Proof.
  intros E r. split.
  - split; vm_compute; reflexivity.
  - apply (PopulateContainer_swap_unset E (Scenario.bare 100) r.1.1
             Scenario.fresh_start r.2).
    vm_compute. reflexivity.
Defined.

(** C1 on the scenario of the specification extended by a third
    container: 100 is populated, 200 fails, 300 is never tried, and the
    cache (empty, never refreshed) stays as it was. *)
Lemma GetContainers_populate_failure_witness :
  let E := Scenario.env (Ok "[100,200,300]") [200] in
  let m := Scenario.fresh_start in
  let p := populate_all E [Scenario.bare 100] (emit E (EvExec runc_argv) m) in
  let q := PopulateContainer E (Scenario.bare 200) p.2 in
  let err := fmt_Errorf "failed to get open files" (ext_error "exit status 1") in
  GetContainers E true m = (Err err, q.2)
  /\ containerCache q.2 = containerCache m
  /\ lastRefreshed q.2 = lastRefreshed m
  /\ populate_calls (trace q.2) =
     populate_calls (trace m) ++ map PID [Scenario.bare 100] ++ [PID (Scenario.bare 200)].
Proof.
  intros E m p q err.
  apply (GetContainers_populate_failure E m "[100,200,300]"
           [Scenario.bare 100] [Scenario.bare 300] (zero_or [] p.1)
           (Scenario.bare 200) q.1.1 err p.2 q.2).
  - vm_compute. discriminate.
  - reflexivity.
  - discriminate.
  - reflexivity.
  - vm_compute. reflexivity.
  - vm_compute. reflexivity.
Defined.

(** C5 on a block of two groups, with an unknown tag, a one-byte line and
    a final empty line. *)
Lemma lsof_parse_groups_witness :
  let gs :=
    [ {| LsofSpec.g_pid := "100";
         LsofSpec.g_body := ["cnginx"; "u0"; "fcwd"; "a"; "tDIR"; "D0x35"; "s4096"; "i2"; "n/"] |};
      {| LsofSpec.g_pid := "200";
         LsofSpec.g_body := ["csshd"; "g200"; "f3"; "tREG"; "n/etc/passwd"; ""] |} ] in
  forallb LsofSpec.well_formed gs = true
  /\ Lsof.parse (LsofSpec.render gs) =
     [ {| Command := "nginx"; lsof_PID := "100"; User := "0"; FD := "cwd"; Type_ := "DIR";
          Device := "0x35"; SizeOff := "4096"; Node := "2"; Name := "/" |};
       {| Command := "sshd"; lsof_PID := "200"; User := ""; FD := "3"; Type_ := "REG";
          Device := ""; SizeOff := ""; Node := ""; Name := "/etc/passwd" |} ].
Proof.
  intros gs. split; [reflexivity|].
  exact (proj1 (lsof_parse_groups gs eq_refl)).
Defined.

(** ** Lookups by process id *)

Lemma find_pid_none (pidInt : Z) (containers : list Container) :
  (forall c, In c containers -> PID c <> pidInt) ->
  List.find (fun c => PID c =? pidInt) containers = None.
Proof.
  intros H. destruct (List.find _ containers) as [c|] eqn:Hfind; [|reflexivity].
  apply find_some in Hfind as [Hin Heq]. apply Z.eqb_eq in Heq.
  exfalso. exact (H c Hin Heq).
Qed.

(** C10. For a pid string that reads as the integer [pidInt], when no
    entry is cached under it or the last refresh is 20 seconds old or
    more, and [GetContainers(false)] returns containers none of which has
    that process id, [GetContainerByID] returns the value cached under the
    string before the call (the zero [Container] when there was none) and
    no error, stores that value under the string in the cache as
    [GetContainers] left it, and sets the last-refresh timestamp to the
    time of the store. *)
Theorem GetContainerByID_not_found (E : Env) (pid : string) (pidInt : Z)
    (m m1 : Machine) (containers : list Container) :
  Atoi pid = Ok pidInt ->
  containerCache m !! pid = None \/ 20 * Second <= time_Since m (lastRefreshed m) ->
  GetContainers E false m = (Ok containers, m1) ->
  (forall c, In c containers -> PID c <> pidInt) ->
  let cached := default zero_Container (containerCache m !! pid) in
  let m2 := (GetContainerByID E pid m).2 in
  (GetContainerByID E pid m).1 = Ok cached
  /\ containerCache m2 = <[pid := cached]> (containerCache m1)
  /\ lastRefreshed m2 = clock m1
  /\ clock m2 = clock m1
  /\ trace m2 = trace m1.
Proof.
  intros Hatoi Hstale Hget Hnone cached m2. subst m2.
  unfold GetContainerByID. fold cached.
  assert (bool_decide (is_Some (containerCache m !! pid))
          && (time_Since m (lastRefreshed m) <? 20 * Second) = false) as ->.
  { destruct Hstale as [-> | Hold].
    - reflexivity.
    - apply Z.ltb_ge in Hold. rewrite Hold. apply andb_false_r. }
  unfold bind at 1. unfold wrapping. rewrite Hatoi.
  unfold bind. rewrite Hget, (find_pid_none _ _ Hnone). cbn.
  repeat split; reflexivity.
Qed.

(** C10 on a cache that holds 100 and 200 and is 30 seconds old, a listing
    of the container 100 alone, and the pid 300: the zero [Container] is
    returned and cached under "300". *)
Lemma GetContainerByID_not_found_witness :
  let E := Scenario.env (Ok "[100]") [] in
  let m := Scenario.cached (30 * Second) in
  let g := GetContainers E false m in
  let r := GetContainerByID E "300" m in
  r.1 = Ok zero_Container
  /\ containerCache r.2 = <["300" := zero_Container]> (containerCache g.2)
  /\ lastRefreshed r.2 = clock g.2
  /\ clock r.2 = clock g.2
  /\ trace r.2 = trace g.2.
Proof.
  intros E m g r.
  apply (GetContainerByID_not_found E "300" 300 m g.2 [Scenario.bare 100]).
  - reflexivity.
  - right. vm_compute. discriminate.
  - vm_compute. reflexivity.
  - intros c [<-|[]]. vm_compute. discriminate.
Defined.

(** ** The periodic refresher *)

Lemma store_all_frame (containers : list Container) :
  forall (cache : gmap string Container) (k : string),
  ~ In k (map (fun c => Itoa (PID c)) containers) ->
  store_all containers cache !! k = cache !! k.
Proof.
  unfold store_all.
  induction containers as [|c rest IH]; intros cache k Hk; [reflexivity|].
  cbn [fold_left]. rewrite IH.
  - apply lookup_insert_ne. intros Heq. apply Hk. now left.
  - intros Hin. apply Hk. now right.
Qed.

Lemma store_all_keeps (containers : list Container) :
  forall (cache : gmap string Container) (k : string),
  is_Some (cache !! k) -> is_Some (store_all containers cache !! k).
Proof.
  unfold store_all.
  induction containers as [|c rest IH]; intros cache k Hk; [exact Hk|].
  cbn [fold_left]. apply IH. rewrite lookup_insert_is_Some.
  destruct (decide (Itoa (PID c) = k)); [now left | now right].
Qed.

(** A call of [GetContainers] that runs a Discovery pass and succeeds
    leaves in the cache the entries of the containers it returns and no
    other. *)
Lemma GetContainers_stale_ok (E : Env) (populate : bool) (m m1 : Machine)
    (containers : list Container) :
  10 * Second <= time_Since m (lastRefreshed m) ->
  GetContainers E populate m = (Ok containers, m1) ->
  containerCache m1 = store_all containers ∅ /\ lastRefreshed m1 = clock m1.
Proof.
  intros Hstale. unfold GetContainers. apply Z.ltb_ge in Hstale. rewrite Hstale.
  unfold bind at 1. unfold wrapping at 1. unfold external.
  destruct (exec_Output E (clock m) runc_argv) as [out|e]; [|discriminate].
  destruct (String.length out =? 0)%nat; [discriminate|].
  unfold bind at 1. unfold wrapping.
  destruct (json_Unmarshal E out) as [listed|e]; [|discriminate].
  unfold bind.
  destruct ((if populate then populate_all E listed else ret listed)
              (emit E (EvExec runc_argv) m)) as [[populated|e] m'];
    [|discriminate].
  intros H. inversion H; subst. split; reflexivity.
Qed.

(** C4 (as amended). On a tick whose [GetContainers] succeeds, the merge
    loop of the tick overwrites the entries of the returned containers by
    key and removes no key of the cache as [GetContainers] left it.  When
    [GetContainers] answered from the cache (last refresh less than 10
    seconds ago) it left the cache as it was, so every earlier entry whose
    key is not the key of a returned container is retained untouched.
    When it ran a Discovery pass it had replaced the whole map, and after
    the tick no key is cached but the keys of the containers found in that
    pass. *)
Theorem refresh_tick_merge (E : Env) (m m1 : Machine) (containers : list Container) :
  GetContainers E true m = (Ok containers, m1) ->
  let m2 := refresh_tick E m in
  let keys := map (fun c => Itoa (PID c)) containers in
  (forall k, ~ In k keys -> containerCache m2 !! k = containerCache m1 !! k)
  /\ (forall k, is_Some (containerCache m1 !! k) -> is_Some (containerCache m2 !! k))
  /\ (time_Since m (lastRefreshed m) < 10 * Second ->
      forall k, ~ In k keys -> containerCache m2 !! k = containerCache m !! k)
  /\ (10 * Second <= time_Since m (lastRefreshed m) ->
      forall k, ~ In k keys -> containerCache m2 !! k = None).
Proof.
  intros Hget m2 keys. subst m2. unfold refresh_tick. rewrite Hget.
  cbn [containerCache set_cache].
  split; [|split; [|split]].
  - intros k Hk. now apply store_all_frame.
  - intros k Hk. now apply store_all_keeps.
  - intros Hfresh k Hk. rewrite (GetContainers_fresh E true m Hfresh) in Hget.
    inversion Hget; subst. now apply store_all_frame.
  - intros Hstale k Hk.
    destruct (GetContainers_stale_ok E true m m1 containers Hstale Hget) as [Hcache _].
    rewrite store_all_frame by exact Hk. rewrite Hcache, store_all_frame by exact Hk.
    apply lookup_empty.
Qed.

(** C4 on the scenario of the specification: 100 and 200 are cached, the
    cache is 30 seconds old, the tick finds 100 alone. *)
Lemma refresh_tick_merge_witness :
  let E := Scenario.env (Ok "[100]") [] in
  let m := Scenario.cached (30 * Second) in
  let g := GetContainers E true m in
  let m2 := refresh_tick E m in
  let keys := map (fun c => Itoa (PID c)) (zero_or [] g.1) in
  (forall k, ~ In k keys -> containerCache m2 !! k = containerCache g.2 !! k)
  /\ (forall k, is_Some (containerCache g.2 !! k) -> is_Some (containerCache m2 !! k))
  /\ (time_Since m (lastRefreshed m) < 10 * Second ->
      forall k, ~ In k keys -> containerCache m2 !! k = containerCache m !! k)
  /\ (10 * Second <= time_Since m (lastRefreshed m) ->
      forall k, ~ In k keys -> containerCache m2 !! k = None).
Proof.
  intros E m g.
  apply (refresh_tick_merge E m g.2 (zero_or [] g.1)).
  vm_compute. reflexivity.
Defined.

(** C4, as stated, fails on that scenario: the tick succeeds for 100 only,
    and the entry cached for 200 is gone after it. *)
Lemma refresh_tick_drops_absent :
  let E := Scenario.env (Ok "[100]") [] in
  let m := Scenario.cached (30 * Second) in
  err_of (GetContainers E true m).1 = None
  /\ map PID (zero_or [] (GetContainers E true m).1) = [100]
  /\ containerCache m !! "200" = Some (Scenario.bare 200)
  /\ containerCache (refresh_tick E m) !! "200" = None.
Proof. vm_compute. repeat split; reflexivity. Qed.

(** C2 (what the code does). [refreshTable] calls [GetContainers(true)],
    which tests the freshness of the cache like every other call: when the
    last refresh is less than 10 seconds old, [refreshTable] runs no
    Discovery pass and no population, and leaves the machine as it was. *)
Theorem refreshTable_fresh_no_pass (E : Env) (m : Machine) :
  time_Since m (lastRefreshed m) < 10 * Second ->
  (refreshTable E m).2 = m
  /\ discoveries (trace (refreshTable E m).2) = discoveries (trace m)
  /\ populate_calls (trace (refreshTable E m).2) = populate_calls (trace m).
Proof.
  intros Hfresh.
  assert ((refreshTable E m).2 = m) as ->; [|repeat split; reflexivity].
  unfold refreshTable. rewrite (GetContainers_fresh E true m Hfresh).
  destruct (table_rows E (range_values E m)); reflexivity.
Qed.

(** The failing input of C2: the cache holds 100 and 200 and is 3 seconds
    old, the runtime now lists 100 alone; the manual refresh shows both
    rows and asks the runtime nothing. *)
Lemma refreshTable_fresh_no_pass_witness :
  let E := Scenario.env (Ok "[100]") [] in
  let m := Scenario.cached (3 * Second) in
  (map (fun row => nth 0 row "") (match (refreshTable E m).1 with
                                  | Returned rows => rows
                                  | Panicked _ => []
                                  end) = ["PID"; "100"; "200"])
  /\ ((refreshTable E m).2 = m
      /\ discoveries (trace (refreshTable E m).2) = discoveries (trace m)
      /\ populate_calls (trace (refreshTable E m).2) = populate_calls (trace m)).
Proof.
  intros E m. split.
  - vm_compute. reflexivity.
  - apply (refreshTable_fresh_no_pass E m). vm_compute. reflexivity.
Defined.

Lemma time_Sub_small (t d : Z) :
  0 <= d < 10 * Second -> time_Sub (t + d) t = d.
Proof.
  intros Hd. unfold time_Sub. replace (t + d - t) with d by ring.
  assert ((maxDuration <? d) = false) as ->
    by (apply Z.ltb_ge; unfold maxDuration, Second in *; lia).
  assert ((d <? minDuration) = false) as ->
    by (apply Z.ltb_ge; unfold minDuration, Second in *; lia).
  reflexivity.
Qed.

(** A tick less than 10 seconds after a refresh is answered from the
    cache, calls nothing outside the program, and marks the cache as just
    refreshed. *)
Lemma refresh_tick_fresh (E : Env) (m : Machine) (d : Z) :
  lastRefreshed m = clock m -> 0 <= d < 10 * Second ->
  let m' := refresh_tick E (elapse d m) in
  trace m' = trace m /\ lastRefreshed m' = clock m'.
Proof.
  intros Hlast Hd m'. subst m'. unfold refresh_tick.
  rewrite GetContainers_fresh.
  - split; reflexivity.
  - unfold time_Since. cbn [clock lastRefreshed elapse]. rewrite Hlast.
    rewrite time_Sub_small by exact Hd. apply Hd.
Qed.

(** C3 (what the code does). Once the cache has been refreshed, a
    refresher whose ticks come less than 10 seconds apart (the ticker's
    period is 5 seconds) never runs a Discovery pass again: every tick is
    answered from the cache and resets the last-refresh timestamp, which
    keeps the cache fresh for the next tick. *)
Theorem refresher_never_rediscovers (E : Env) (gaps : list Z) :
  forall m : Machine,
  lastRefreshed m = clock m ->
  Forall (fun d => 0 <= d < 10 * Second) gaps ->
  trace (refresher E gaps m) = trace m
  /\ discoveries (trace (refresher E gaps m)) = discoveries (trace m)
  /\ populate_calls (trace (refresher E gaps m)) = populate_calls (trace m).
Proof.
  assert (forall m, lastRefreshed m = clock m ->
                    Forall (fun d => 0 <= d < 10 * Second) gaps ->
                    trace (refresher E gaps m) = trace m) as Htrace.
  { induction gaps as [|d rest IH]; intros m Hlast Hgaps; [reflexivity|].
    inversion Hgaps as [|? ? Hd Hrest]; subst. cbn [refresher].
    destruct (refresh_tick_fresh E m d Hlast Hd) as [Htr Hl].
    rewrite IH; assumption. }
  intros m Hlast Hgaps. rewrite (Htrace m Hlast Hgaps). repeat split; reflexivity.
Qed.

(** The failing input of C3: the cache has just been refreshed, and ticks
    arrive every 5 seconds; the runtime is never asked again. *)
Lemma refresher_never_rediscovers_witness :
  let E := Scenario.env (Ok "[100]") [] in
  let m := Scenario.cached 0 in
  let gaps := [tickerPeriod; tickerPeriod; tickerPeriod; tickerPeriod] in
  trace (refresher E gaps m) = trace m
  /\ discoveries (trace (refresher E gaps m)) = discoveries (trace m)
  /\ populate_calls (trace (refresher E gaps m)) = populate_calls (trace m).
Proof.
  intros E m gaps.
  apply (refresher_never_rediscovers E gaps m).
  - reflexivity.
  - repeat constructor; vm_compute; discriminate.
Defined.

(** ** The table refresh *)

(** C8 (as amended). When [GetContainers] returns an error to
    [refreshTable], [refreshTable] panics with that error. *)
Theorem refreshTable_fetch_error_panics (E : Env) (m m' : Machine) (err : error) :
  GetContainers E true m = (Err err, m') ->
  refreshTable E m = (Panicked err, m').
Proof. intros H. unfold refreshTable. now rewrite H. Qed.

Lemma refreshTable_fetch_error_panics_witness :
  let E := Scenario.env (Err (ext_error "exit status 1")) [] in
  let err := fmt_Errorf "error executing runc command" (ext_error "exit status 1") in
  refreshTable E Scenario.fresh_start =
  (Panicked err, emit E (EvExec runc_argv) Scenario.fresh_start).
Proof.
  intros E err.
  apply (refreshTable_fetch_error_panics E Scenario.fresh_start).
  vm_compute. reflexivity.
Defined.

(** C8, as stated, fails: the listing command fails at start-up, the
    fetch returns its error, and [refreshTable] panics. *)
Lemma refreshTable_panics_on_fetch_error :
  let E := Scenario.env (Err (ext_error "exit status 1")) [] in
  (GetContainers E true Scenario.fresh_start).1 =
    Err (fmt_Errorf "error executing runc command" (ext_error "exit status 1"))
  /\ (refreshTable E Scenario.fresh_start).1 =
     Panicked (fmt_Errorf "error executing runc command" (ext_error "exit status 1")).
Proof. vm_compute. split; reflexivity. Qed.

(** ** Cache keys: printing and reading a process id *)

Section KeyFacts.

Lemma digits_string_of_uint (d : Decimal.uint) :
  forall acc : Z, digits acc (NilEmpty.string_of_uint d) = Some (uint_val acc d).
Proof.
  induction d; intros acc; cbn [NilEmpty.string_of_uint uint_val digits];
    try reflexivity;
    match goal with
    | |- context [digit_of ?c] =>
        change (digit_of c) with (Some (Z.of_N (N_of_ascii c) - 48))
    end;
    cbn [N_of_ascii N_of_digits]; rewrite IHd; f_equal; f_equal; lia.
Qed.

Lemma uint_val_of_uint_acc (d : Decimal.uint) :
  forall p : positive, uint_val (Z.pos p) d = Z.pos (Pos.of_uint_acc d p).
Proof.
  induction d; intros p; cbn [uint_val Pos.of_uint_acc]; try reflexivity;
    rewrite <- IHd; f_equal; lia.
Qed.

Lemma uint_val_of_uint (d : Decimal.uint) : uint_val 0 d = Z.of_N (Pos.of_uint d).
Proof.
  induction d; cbn [uint_val Pos.of_uint]; try reflexivity; try exact IHd;
    cbn [Z.mul Z.add Z.of_N]; apply uint_val_of_uint_acc.
Qed.

Lemma digits_to_uint (p : positive) :
  digits 0 (NilZero.string_of_uint (Pos.to_uint p)) = Some (Z.pos p).
Proof.
  assert (NilZero.string_of_uint (Pos.to_uint p) = NilEmpty.string_of_uint (Pos.to_uint p)) as ->.
  { pose proof (DecimalPos.Unsigned.to_uint_nonnil p) as Hnn.
    destruct (Pos.to_uint p); [congruence | reflexivity..]. }
  rewrite digits_string_of_uint, uint_val_of_uint, DecimalPos.Unsigned.of_to.
  reflexivity.
Qed.

(** A string of digits that reads as a number starts with neither sign. *)
Lemma digits_head (c : ascii) (r : string) (acc v : Z) :
  digits acc (String c r) = Some v -> c <> "-"%char /\ c <> "+"%char.
Proof.
  cbn [digits]. destruct (digit_of c) as [d|] eqn:Hd; [|discriminate].
  intros _. split; intros ->; discriminate Hd.
Qed.

Lemma Atoi_digits (s : string) (v : Z) :
  digits 0 s = Some v -> s <> "" -> in_int64 v = true -> Atoi s = Ok v.
Proof.
  intros Hd Hne Hr. destruct s as [|c r]; [congruence|].
  destruct (digits_head _ _ _ _ Hd) as [Hm Hp].
  unfold Atoi.
  assert (match String c r with
          | String "-" r0 => (true, r0)
          | String "+" r0 => (false, r0)
          | _ => (false, String c r)
          end = (false, String c r)) as ->.
  { destruct c as [[] [] [] [] [] [] [] []]; try reflexivity; congruence. }
  rewrite Hd, Hr. reflexivity.
Qed.

End KeyFacts.

(** X1. The key under which a container is cached reads back as its
    process id: for every process id in the range of [int],
    [strconv.Atoi] of [strconv.Itoa] of it is that id, without an error. *)
Theorem Atoi_Itoa (pid : Z) :
  in_int64 pid = true -> Atoi (Itoa pid) = Ok pid.
Proof.
  intros Hr. unfold Itoa. destruct pid as [|p|p]; cbn [Z.to_int NilZero.string_of_int].
  - reflexivity.
  - pose proof (digits_to_uint p) as Hd.
    apply Atoi_digits; [exact Hd| |exact Hr].
    intros Hs. rewrite Hs in Hd. discriminate Hd.
  - pose proof (digits_to_uint p) as Hd.
    unfold Atoi.
    destruct (NilZero.string_of_uint (Pos.to_uint p)) as [|c r] eqn:Hs;
      [discriminate Hd|].
    rewrite Hd. cbv zeta. change (- Z.pos p) with (Z.neg p). rewrite Hr. reflexivity.
Qed.

Lemma Atoi_Itoa_witness :
  in_int64 (-4242) = true /\ Atoi (Itoa (-4242)) = Ok (-4242).
Proof. split; [reflexivity | apply (Atoi_Itoa (-4242)); reflexivity]. Defined.

(** Two process ids that print alike are the same. *)
Lemma Itoa_inj (a b : Z) : Itoa a = Itoa b -> a = b.
Proof.
  unfold Itoa. intros H.
  assert (forall z, NilZero.int_of_string (NilZero.string_of_int (Z.to_int z))
                    = Some (Z.to_int z)) as Hisi.
  { intros z. destruct z as [|p|p]; [reflexivity| |]; apply NilZero.isi;
      cbn [Z.to_int]; try discriminate; intros [= Hn];
      exact (DecimalPos.Unsigned.to_uint_nonnil p Hn). }
  pose proof (Hisi a) as Ha. rewrite H, Hisi in Ha. injection Ha as Ha.
  rewrite <- (DecimalZ.of_to a), <- (DecimalZ.of_to b). now f_equal.
Qed.

(** ** A Discovery pass, from its result *)

Section PassFacts.

Variable E : Env.

Lemma discoveries_app (tr tr' : list Event) :
  discoveries (tr ++ tr') = (discoveries tr + discoveries tr')%nat.
Proof. unfold discoveries. now rewrite omap_app, length_app. Qed.

Ltac count_discoveries :=
  rewrite ?discoveries_app; unfold discoveries; cbn [omap list_omap];
  repeat (destruct (decide _) as [Habs|_]; [discriminate Habs|]);
  cbn [length]; lia.

Lemma run_adapter_discoveries (a : Adapter) (c c' : Container) (err : option error)
    (m m' : Machine) :
  run_adapter E a c m = ((c', err), m') ->
  discoveries (trace m') = discoveries (trace m).
Proof.
  intros H. destruct a;
    cbv [run_adapter assign getOpenFiles getContainerNetworkUsage
         getContainerMountedVolumes getContainerExposedPorts
         getContainerStartCommand getContainerSecurityProfiles
         getEnvironmentVariables getContainerResourceUsage getContainerCPUUsage
         getContainerMemoryDetails NewProcess bind ret wrapping external enter emit
         lsof_argv runc_argv] in H;
    cbn [containerCache lastRefreshed clock trace] in H;
    repeat match type of H with
           | context [match ?x with _ => _ end] =>
               lazymatch x with
               | context [match _ with _ => _ end] => fail
               | _ => destruct x eqn:?; cbv beta iota in H
               end
           end;
    inversion H; subst; clear H; cbn [trace]; unfold runc_argv; count_discoveries.
Qed.

Lemma sequential_discoveries (adapters : list Adapter) (c c' : Container)
    (log : list (Adapter * option error)) (m m' : Machine) :
  sequential E adapters c m log c' m' ->
  discoveries (trace m') = discoveries (trace m).
Proof.
  induction 1 as [c m | a rest c m c1 m1 log c2 m2 Hrun _ IH | a rest c m c1 e m1 Hrun].
  - reflexivity.
  - rewrite IH. eapply run_adapter_discoveries, Hrun.
  - eapply run_adapter_discoveries, Hrun.
Qed.

Lemma PopulateContainer_discoveries (c : Container) (m : Machine) :
  discoveries (trace (PopulateContainer E c m).2) = discoveries (trace m).
Proof.
  destruct (PopulateContainer_log E c m) as (log & Hseq & _).
  rewrite (sequential_discoveries _ _ _ _ _ _ Hseq). cbn [enter snd trace].
  count_discoveries.
Qed.

(** The population loop, whatever its end, touches neither the cache nor
    the count of Discovery passes. *)
Lemma populate_all_frame (containers : list Container) :
  forall m : Machine,
  containerCache (populate_all E containers m).2 = containerCache m
  /\ lastRefreshed (populate_all E containers m).2 = lastRefreshed m
  /\ discoveries (trace (populate_all E containers m).2) = discoveries (trace m).
Proof.
  induction containers as [|c rest IH]; intros m; [repeat split; reflexivity|].
  cbn [populate_all].
  pose proof (PopulateContainer_discoveries c m) as Hd.
  destruct (PopulateContainer E c m) as [[c' [err|]] m1] eqn:Hc;
    apply PopulateContainer_footprint in Hc as (Hcache & Hlast & _ & _);
    cbn [snd] in Hd |- *.
  - repeat split; assumption.
  - unfold bind, ret. specialize (IH m1).
    destruct (populate_all E rest m1) as [[rest'|e] m2]; cbn [snd] in IH |- *;
      destruct IH as (IH1 & IH2 & IH3); repeat split; congruence.
Qed.

(** What a successful call of [GetContainers] on a cache that is not fresh
    went through. *)
Lemma GetContainers_stale_inv (populate : bool) (m m1 : Machine)
    (containers : list Container) :
  10 * Second <= time_Since m (lastRefreshed m) ->
  GetContainers E populate m = (Ok containers, m1) ->
  exists out listed m',
    exec_Output E (clock m) runc_argv = Ok out /\ out <> ""
    /\ json_Unmarshal E out = Ok listed
    /\ (if populate then populate_all E listed else ret listed)
         (emit E (EvExec runc_argv) m) = (Ok containers, m')
    /\ m1 = set_cache (store_all containers ∅) (clock m') m'.
Proof.
  intros Hstale. unfold GetContainers. apply Z.ltb_ge in Hstale. rewrite Hstale.
  unfold bind at 1. unfold wrapping at 1. unfold external.
  destruct (exec_Output E (clock m) runc_argv) as [out|e] eqn:Hout; [|discriminate].
  destruct out as [|a s]; [discriminate|]. cbn [String.length Nat.eqb].
  unfold bind at 1. unfold wrapping.
  destruct (json_Unmarshal E (String a s)) as [listed|e] eqn:Hjson; [|discriminate].
  unfold bind.
  destruct ((if populate then populate_all E listed else ret listed)
              (emit E (EvExec runc_argv) m)) as [[populated|e] m'] eqn:Hpop;
    [|discriminate].
  intros H. inversion H; subst.
  exists (String a s), listed, m'.
  split; [reflexivity|]. split; [discriminate|]. split; [exact Hjson|].
  split; [exact Hpop | reflexivity].
Qed.

Lemma store_all_snoc (containers : list Container) (c : Container)
    (cache : gmap string Container) :
  store_all (containers ++ [c]) cache = <[Itoa (PID c) := c]> (store_all containers cache).
Proof. unfold store_all. now rewrite fold_left_app. Qed.

(** Under each key a store leaves the last of the stored containers that
    has the key, and what was there before when none has. *)
Lemma store_all_lookup (containers : list Container) (cache : gmap string Container)
    (k : string) :
  store_all containers cache !! k =
  match stored_under k containers with
  | Some c => Some c
  | None => cache !! k
  end.
Proof.
  unfold stored_under.
  induction containers as [|c containers IH] using rev_ind; [reflexivity|].
  rewrite store_all_snoc, filter_app, filter_cons, filter_nil.
  destruct (decide (Itoa (PID c) = k)) as [Hk|Hk].
  - rewrite last_snoc, <- Hk. apply lookup_insert_eq.
  - rewrite app_nil_r, lookup_insert_ne by exact Hk. exact IH.
Qed.

Lemma stored_under_In (k : string) (containers : list Container) (c : Container) :
  stored_under k containers = Some c -> In c containers /\ Itoa (PID c) = k.
Proof.
  unfold stored_under. intros H. apply last_Some_elem_of in H.
  apply list_elem_of_filter in H as [Hk Hin]. split; [|exact Hk].
  now apply list_elem_of_In.
Qed.

Lemma stored_under_Some (containers : list Container) (c : Container) :
  In c containers -> is_Some (stored_under (Itoa (PID c)) containers).
Proof.
  unfold stored_under. intros Hin.
  destruct (last (filter (fun c0 => Itoa (PID c0) = Itoa (PID c)) containers)) as [c'|] eqn:Hl;
    [eauto|].
  apply last_None in Hl.
  assert (c ∈ filter (fun c0 => Itoa (PID c0) = Itoa (PID c)) containers) as Hc.
  { apply list_elem_of_filter. split; [reflexivity | now apply list_elem_of_In]. }
  rewrite Hl in Hc. inversion Hc.
Qed.

Lemma store_all_empty_lookup (containers : list Container) (k : string) :
  store_all containers ∅ !! k = stored_under k containers.
Proof.
  rewrite store_all_lookup, lookup_empty. destruct (stored_under k containers); reflexivity.
Qed.

(** A store of containers into an empty map can be read back by the
    printed process id of each. *)
Lemma store_all_finds (containers : list Container) (c : Container) :
  In c containers ->
  exists c', store_all containers ∅ !! Itoa (PID c) = Some c'
             /\ PID c' = PID c /\ In c' containers.
Proof.
  intros Hin. destruct (stored_under_Some containers c Hin) as [c' Hc'].
  exists c'. rewrite store_all_empty_lookup. split; [exact Hc'|].
  apply stored_under_In in Hc' as [Hin' Hk]. split; [|exact Hin'].
  now apply Itoa_inj.
Qed.

(** A failed call of [GetContainers] has not touched the cache. *)
Lemma GetContainers_Err_frame (populate : bool) (m m' : Machine) (err : error) :
  GetContainers E populate m = (Err err, m') ->
  containerCache m' = containerCache m /\ lastRefreshed m' = lastRefreshed m.
Proof.
  unfold GetContainers.
  destruct (time_Since m (lastRefreshed m) <? 10 * Second); [discriminate|].
  unfold bind at 1. unfold wrapping at 1. unfold external.
  destruct (exec_Output E (clock m) runc_argv) as [out|e].
  2:{ intros H. inversion H; subst. split; reflexivity. }
  destruct (String.length out =? 0)%nat.
  { intros H. inversion H; subst. split; reflexivity. }
  unfold bind at 1. unfold wrapping.
  destruct (json_Unmarshal E out) as [listed|e].
  2:{ intros H. inversion H; subst. split; reflexivity. }
  unfold bind. destruct populate.
  - pose proof (populate_all_frame listed (emit E (EvExec runc_argv) m)) as (Hc & Hl & _).
    destruct (populate_all E listed (emit E (EvExec runc_argv) m)) as [[populated|e] m2];
      [discriminate|].
    intros H. inversion H; subst. split; assumption.
  - discriminate.
Qed.

End PassFacts.

(** X2. After a call of [GetContainers] that ran a Discovery pass and
    succeeded, the cache holds under each key the last of the returned
    containers whose process id prints as that key, and nothing under any
    other key; the last-refresh timestamp is the time of the store; and a
    lookup under the printed process id of any returned container finds a
    returned container of that process id. *)
Theorem GetContainers_pass_cache (E : Env) (populate : bool) (m m1 : Machine)
    (containers : list Container) :
  10 * Second <= time_Since m (lastRefreshed m) ->
  GetContainers E populate m = (Ok containers, m1) ->
  (forall k, containerCache m1 !! k = stored_under k containers)
  /\ lastRefreshed m1 = clock m1
  /\ (forall c, In c containers ->
        exists c', containerCache m1 !! Itoa (PID c) = Some c'
                   /\ PID c' = PID c /\ In c' containers).
Proof.
  intros Hstale Hget.
  destruct (GetContainers_stale_ok E populate m m1 containers Hstale Hget) as [Hcache Hlast].
  rewrite Hcache. split; [|split; [exact Hlast|]].
  - intros k. apply store_all_empty_lookup.
  - intros c Hin. now apply store_all_finds.
Qed.

Lemma GetContainers_pass_cache_witness :
  let E := Scenario.env (Ok "[100,200]") [] in
  let m := Scenario.cached (30 * Second) in
  let g := GetContainers E true m in
  (forall k, containerCache g.2 !! k = stored_under k (zero_or [] g.1))
  /\ lastRefreshed g.2 = clock g.2
  /\ (forall c, In c (zero_or [] g.1) ->
        exists c', containerCache g.2 !! Itoa (PID c) = Some c'
                   /\ PID c' = PID c /\ In c' (zero_or [] g.1)).
Proof.
  intros E m g.
  apply (GetContainers_pass_cache E true m g.2 (zero_or [] g.1)).
  - vm_compute. discriminate.
  - vm_compute. reflexivity.
Defined.

(** X3. A call of [GetContainers] that ran a Discovery pass and succeeded
    executed the listing command once, called [PopulateContainer] once for
    each listed container in the order of the listing when population was
    asked for and never otherwise, and returns containers with the process
    ids of the listing in its order (the listing itself without
    population). *)
Theorem GetContainers_pass_trace (E : Env) (populate : bool) (m m1 : Machine)
    (containers : list Container) :
  10 * Second <= time_Since m (lastRefreshed m) ->
  GetContainers E populate m = (Ok containers, m1) ->
  exists out listed,
    exec_Output E (clock m) runc_argv = Ok out
    /\ json_Unmarshal E out = Ok listed
    /\ map PID containers = map PID listed
    /\ (populate = false -> containers = listed)
    /\ discoveries (trace m1) = S (discoveries (trace m))
    /\ populate_calls (trace m1) =
       populate_calls (trace m) ++ (if populate then map PID listed else []).
Proof.
  intros Hstale Hget.
  destruct (GetContainers_stale_inv E populate m m1 containers Hstale Hget)
    as (out & listed & m' & Hout & _ & Hjson & Hpop & ->).
  exists out, listed. split; [exact Hout|]. split; [exact Hjson|].
  cbn [set_cache trace].
  assert (discoveries (trace (emit E (EvExec runc_argv) m)) = S (discoveries (trace m))) as Hd.
  { cbn [emit trace]. rewrite discoveries_app. unfold discoveries at 2. cbn [omap list_omap].
    rewrite decide_True by reflexivity. cbn [length]. lia. }
  assert (populate_calls (trace (emit E (EvExec runc_argv) m)) = populate_calls (trace m)) as Hp.
  { cbn [emit trace]. rewrite populate_calls_app. cbn. apply app_nil_r. }
  destruct populate.
  - pose proof (populate_all_frame E listed (emit E (EvExec runc_argv) m)) as (_ & _ & Hd').
    rewrite Hpop in Hd'. cbn [snd] in Hd'.
    apply populate_all_ok in Hpop as (_ & _ & Hpids & Hcalls).
    repeat split; congruence.
  - inversion Hpop; subst. rewrite app_nil_r. repeat split; congruence.
Qed.

Lemma GetContainers_pass_trace_witness :
  let E := Scenario.env (Ok "[100,200]") [] in
  let m := Scenario.cached (30 * Second) in
  let g := GetContainers E true m in
  exists out listed,
    exec_Output E (clock m) runc_argv = Ok out
    /\ json_Unmarshal E out = Ok listed
    /\ map PID (zero_or [] g.1) = map PID listed
    /\ (true = false -> zero_or [] g.1 = listed)
    /\ discoveries (trace g.2) = S (discoveries (trace m))
    /\ populate_calls (trace g.2) = populate_calls (trace m) ++ map PID listed.
Proof.
  intros E m g.
  apply (GetContainers_pass_trace E true m g.2 (zero_or [] g.1)).
  - vm_compute. discriminate.
  - vm_compute. reflexivity.
Defined.

(** X4. A call of [GetContainers] that returns an error, whichever (the
    listing command failed, its output was empty or did not decode, a
    population failed), leaves the cache map and the last-refresh
    timestamp as they were. *)
Theorem GetContainers_error_keeps_cache (E : Env) (populate : bool) (m m' : Machine)
    (err : error) :
  GetContainers E populate m = (Err err, m') ->
  containerCache m' = containerCache m /\ lastRefreshed m' = lastRefreshed m.
Proof.
  intros Hget. destruct (GetContainers_Err_frame E populate m m' err Hget) as [Hc Hl].
  split; [exact Hc | exact Hl].
Qed.

Lemma GetContainers_error_keeps_cache_witness :
  let E := Scenario.env (Ok "") [] in
  let m := Scenario.cached (30 * Second) in
  (GetContainers E true m).1 = Err (errors_New "runc output is empty")
  /\ (containerCache (GetContainers E true m).2 = containerCache m
      /\ lastRefreshed (GetContainers E true m).2 = lastRefreshed m).
Proof.
  intros E m. split; [vm_compute; reflexivity|].
  apply (GetContainers_error_keeps_cache E true m (GetContainers E true m).2
           (errors_New "runc output is empty")).
  vm_compute. reflexivity.
Defined.

(** ** The fast path after a pass *)

Section WindowFacts.

Variable E : Env.

Lemma insert_by_perm (rank : string -> nat) (x : string * Container)
    (l : list (string * Container)) :
  insert_by rank x l ≡ₚ x :: l.
Proof.
  induction l as [|y l IH]; [reflexivity|]. cbn [insert_by].
  destruct (rank x.1 <=? rank y.1)%nat; [reflexivity|].
  rewrite IH. apply Permutation_swap.
Qed.

(** The fast path returns each cached value once. *)
Lemma range_values_perm (m : Machine) :
  range_values E m ≡ₚ (map_to_list (containerCache m)).*2.
Proof.
  unfold range_values. apply fmap_Permutation.
  induction (map_to_list (containerCache m)) as [|x l IH]; [reflexivity|].
  cbn [foldr]. rewrite insert_by_perm. now constructor.
Qed.

Lemma store_all_to_list (containers : list Container) :
  NoDup (map PID containers) ->
  map_to_list (store_all containers ∅) ≡ₚ map (fun c => (Itoa (PID c), c)) containers.
Proof.
  induction containers as [|c containers IH] using rev_ind; intros Hnd.
  - cbn. now rewrite map_to_list_empty.
  - rewrite map_app in Hnd. apply NoDup_app in Hnd as (Hnd & Hfresh & _).
    rewrite store_all_snoc, map_to_list_insert.
    + rewrite (IH Hnd), map_app. cbn [map]. apply Permutation_cons_append.
    + rewrite store_all_frame; [apply lookup_empty|].
      intros Hin. apply in_map_iff in Hin as (c0 & Hk & Hin0).
      apply Itoa_inj in Hk. apply (Hfresh (PID c0)).
      * apply list_elem_of_In, in_map. exact Hin0.
      * rewrite Hk. now left.
Qed.

Lemma time_Sub_add (t d : Z) :
  0 <= d <= maxDuration -> time_Sub (t + d) t = d.
Proof.
  intros Hd. unfold time_Sub. replace (t + d - t) with d by ring.
  assert ((maxDuration <? d) = false) as -> by (apply Z.ltb_ge; lia).
  assert ((d <? minDuration) = false) as ->
    by (apply Z.ltb_ge; unfold minDuration, maxDuration in *; lia).
  reflexivity.
Qed.

Lemma NoDup_map_PID_inj (containers : list Container) (c c' : Container) :
  NoDup (map PID containers) -> In c containers -> In c' containers ->
  PID c = PID c' -> c = c'.
Proof.
  induction containers as [|x l IH]; intros Hnd Hc Hc' Hp; [contradiction|].
  cbn [map] in Hnd. apply NoDup_cons in Hnd as [Hx Hnd].
  destruct Hc as [->|Hc], Hc' as [->|Hc']; try reflexivity.
  - exfalso. apply Hx. rewrite Hp. apply list_elem_of_In, in_map. exact Hc'.
  - exfalso. apply Hx. rewrite <- Hp. apply list_elem_of_In, in_map. exact Hc.
  - now apply IH.
Qed.

End WindowFacts.

(** X5. A second call of [GetContainers], with or without population,
    less than 10 seconds after a call that ran a Discovery pass and
    succeeded, calls nothing outside the program and changes nothing: it
    returns the cached values, each once, in some order; these are the
    containers the first call returned when their process ids are
    pairwise different. *)
Theorem GetContainers_again_within_window (E : Env) (populate populate' : bool)
    (m m1 : Machine) (containers : list Container) (d : Z) :
  10 * Second <= time_Since m (lastRefreshed m) ->
  GetContainers E populate m = (Ok containers, m1) ->
  0 <= d < 10 * Second ->
  exists again,
    GetContainers E populate' (elapse d m1) = (Ok again, elapse d m1)
    /\ again ≡ₚ (map_to_list (containerCache m1)).*2
    /\ (NoDup (map PID containers) -> again ≡ₚ containers).
Proof.
  intros Hstale Hget Hd.
  destruct (GetContainers_stale_ok E populate m m1 containers Hstale Hget) as [Hcache Hlast].
  exists (range_values E (elapse d m1)). split; [|split].
  - apply GetContainers_fresh. unfold time_Since. cbn [clock lastRefreshed elapse].
    rewrite Hlast, time_Sub_small by exact Hd. apply Hd.
  - exact (range_values_perm E (elapse d m1)).
  - intros Hnd. rewrite range_values_perm. cbn [containerCache elapse].
    rewrite Hcache, (store_all_to_list _ Hnd).
    rewrite <- list_fmap_compose. cbn. now rewrite list_fmap_id.
Qed.

Lemma GetContainers_again_within_window_witness :
  let E := Scenario.env (Ok "[100,200]") [] in
  let m := Scenario.cached (30 * Second) in
  let g := GetContainers E true m in
  exists again,
    GetContainers E false (elapse (9 * Second) g.2) = (Ok again, elapse (9 * Second) g.2)
    /\ again ≡ₚ (map_to_list (containerCache g.2)).*2
    /\ (NoDup (map PID (zero_or [] g.1)) -> again ≡ₚ zero_or [] g.1).
Proof.
  intros E m g.
  apply (GetContainers_again_within_window E true false m g.2 (zero_or [] g.1) (9 * Second)).
  - vm_compute. discriminate.
  - vm_compute. reflexivity.
  - vm_compute. split; [discriminate | reflexivity].
Defined.

(** X6. Less than 20 seconds after a call of [GetContainers] that ran a
    Discovery pass and succeeded, [GetContainerByID] on the printed
    process id of a returned container calls nothing outside the program
    and changes nothing: it returns, without an error, a returned
    container of that process id (the container itself when the process
    ids returned are pairwise different). *)
Theorem GetContainerByID_after_pass (E : Env) (populate : bool) (m m1 : Machine)
    (containers : list Container) (c : Container) (d : Z) :
  10 * Second <= time_Since m (lastRefreshed m) ->
  GetContainers E populate m = (Ok containers, m1) ->
  In c containers ->
  0 <= d < 20 * Second ->
  exists c',
    GetContainerByID E (Itoa (PID c)) (elapse d m1) = (Ok c', elapse d m1)
    /\ PID c' = PID c /\ In c' containers
    /\ (NoDup (map PID containers) -> c' = c).
Proof.
  intros Hstale Hget Hin Hd.
  destruct (GetContainers_stale_ok E populate m m1 containers Hstale Hget) as [Hcache Hlast].
  destruct (store_all_finds containers c Hin) as (c' & Hc' & Hpid & Hin').
  rewrite <- Hcache in Hc'.
  exists c'. split; [|split; [exact Hpid|split; [exact Hin'|]]].
  - unfold GetContainerByID. cbn [containerCache elapse]. rewrite Hc'.
    unfold time_Since. cbn [clock lastRefreshed elapse default].
    rewrite Hlast, time_Sub_add.
    + assert ((d <? 20 * Second) = true) as -> by (apply Z.ltb_lt; lia).
      reflexivity.
    + unfold maxDuration, Second in *. lia.
  - intros Hnd. symmetry. now apply (NoDup_map_PID_inj containers).
Qed.

Lemma GetContainerByID_after_pass_witness :
  let E := Scenario.env (Ok "[100,200]") [] in
  let m := Scenario.cached (30 * Second) in
  let g := GetContainers E false m in
  exists c',
    GetContainerByID E (Itoa (PID (Scenario.bare 200))) (elapse (19 * Second) g.2)
    = (Ok c', elapse (19 * Second) g.2)
    /\ PID c' = PID (Scenario.bare 200) /\ In c' (zero_or [] g.1)
    /\ (NoDup (map PID (zero_or [] g.1)) -> c' = Scenario.bare 200).
Proof.
  intros E m g.
  apply (GetContainerByID_after_pass E false m g.2 (zero_or [] g.1)
           (Scenario.bare 200) (19 * Second)).
  - vm_compute. discriminate.
  - vm_compute. reflexivity.
  - right. left. reflexivity.
  - vm_compute. split; [discriminate | reflexivity].
Defined.

(** X7. When [GetContainerByID] does not answer from the cache, the pid
    string reads as [pidInt], and [GetContainers(false)] returns
    containers the first of which with that process id is [found], it
    populates [found] and returns the populated container, or the
    population's error under "failed to populate container"; either way
    it stores nothing: the cache and its timestamp are as
    [GetContainers] left them, so that after a Discovery pass the cache
    holds the containers of the listing and not the populated one. *)
Theorem GetContainerByID_found (E : Env) (pid : string) (pidInt : Z)
    (m m1 m2 : Machine) (containers : list Container)
    (found populated : Container) (perr : option error) :
  Atoi pid = Ok pidInt ->
  containerCache m !! pid = None \/ 20 * Second <= time_Since m (lastRefreshed m) ->
  GetContainers E false m = (Ok containers, m1) ->
  List.find (fun c => PID c =? pidInt) containers = Some found ->
  PopulateContainer E found m1 = ((populated, perr), m2) ->
  GetContainerByID E pid m =
    (match perr with
     | None => Ok populated
     | Some e => Err (fmt_Errorf "failed to populate container" e)
     end, m2)
  /\ PID populated = pidInt
  /\ containerCache m2 = containerCache m1
  /\ lastRefreshed m2 = lastRefreshed m1
  /\ (10 * Second <= time_Since m (lastRefreshed m) ->
      forall k, containerCache m2 !! k = stored_under k containers).
Proof.
  intros Hatoi Hslow Hget Hfind Hpop.
  pose proof Hpop as Hfp. apply PopulateContainer_footprint in Hfp as (Hc & Hl & Hp & _).
  split; [|split; [|split; [exact Hc|split; [exact Hl|]]]].
  - unfold GetContainerByID.
    assert (bool_decide (is_Some (containerCache m !! pid))
            && (time_Since m (lastRefreshed m) <? 20 * Second) = false) as ->.
    { destruct Hslow as [-> | Hold].
      - reflexivity.
      - apply Z.ltb_ge in Hold. rewrite Hold. apply andb_false_r. }
    unfold bind at 1. unfold wrapping. rewrite Hatoi.
    unfold bind. rewrite Hget, Hfind, Hpop. destruct perr; reflexivity.
  - rewrite Hp. apply find_some in Hfind as [_ Heq]. now apply Z.eqb_eq in Heq.
  - intros Hstale k. rewrite Hc.
    destruct (GetContainers_stale_ok E false m m1 containers Hstale Hget) as [Hcache _].
    rewrite Hcache. apply store_all_empty_lookup.
Qed.

Lemma GetContainerByID_found_witness :
  let E := Scenario.env (Ok "[100,200]") [] in
  let m := Scenario.cached (30 * Second) in
  let g := GetContainers E false m in
  let p := PopulateContainer E (Scenario.bare 200) g.2 in
  GetContainerByID E "200" m = (Ok p.1.1, p.2)
  /\ PID p.1.1 = 200
  /\ containerCache p.2 = containerCache g.2
  /\ lastRefreshed p.2 = lastRefreshed g.2
  /\ (10 * Second <= time_Since m (lastRefreshed m) ->
      forall k, containerCache p.2 !! k = stored_under k (zero_or [] g.1)).
Proof.
  intros E m g p.
  apply (GetContainerByID_found E "200" 200 m g.2 p.2 (zero_or [] g.1)
           (Scenario.bare 200) p.1.1 None).
  - reflexivity.
  - right. vm_compute. discriminate.
  - vm_compute. reflexivity.
  - reflexivity.
  - vm_compute. reflexivity.
Defined.

(** ** Time and retries *)

Section ClockFacts.

Variable E : Env.
Hypothesis latency_nonneg : forall ev, 0 <= latency E ev.

Ltac with_latencies :=
  repeat match goal with
         | |- context [latency E ?ev] =>
             lazymatch goal with
             | H : 0 <= latency E ev |- _ => fail
             | _ => pose proof (latency_nonneg ev)
             end
         end;
  lia.

Lemma run_adapter_clock (a : Adapter) (c c' : Container) (err : option error)
    (m m' : Machine) :
  run_adapter E a c m = ((c', err), m') -> clock m <= clock m'.
Proof.
  intros H. destruct a;
    cbv [run_adapter assign getOpenFiles getContainerNetworkUsage
         getContainerMountedVolumes getContainerExposedPorts
         getContainerStartCommand getContainerSecurityProfiles
         getEnvironmentVariables getContainerResourceUsage getContainerCPUUsage
         getContainerMemoryDetails NewProcess bind ret wrapping external enter emit] in H;
    cbn [containerCache lastRefreshed clock trace] in H;
    repeat match type of H with
           | context [match ?x with _ => _ end] =>
               lazymatch x with
               | context [match _ with _ => _ end] => fail
               | _ => destruct x eqn:?; cbv beta iota in H
               end
           end;
    inversion H; subst; clear H; cbn [clock]; with_latencies.
Qed.

Lemma sequential_clock (adapters : list Adapter) (c c' : Container)
    (log : list (Adapter * option error)) (m m' : Machine) :
  sequential E adapters c m log c' m' -> clock m <= clock m'.
Proof.
  induction 1 as [c m | a rest c m c1 m1 log c2 m2 Hrun _ IH | a rest c m c1 e m1 Hrun].
  - lia.
  - apply run_adapter_clock in Hrun. lia.
  - now apply run_adapter_clock in Hrun.
Qed.

Lemma PopulateContainer_clock (c : Container) (m : Machine) :
  clock m <= clock (PopulateContainer E c m).2.
Proof.
  destruct (PopulateContainer_log E c m) as (log & Hseq & _).
  apply sequential_clock in Hseq. exact Hseq.
Qed.

Lemma populate_all_clock (containers : list Container) :
  forall m : Machine, clock m <= clock (populate_all E containers m).2.
Proof.
  induction containers as [|c rest IH]; intros m; [cbn; lia|].
  cbn [populate_all]. pose proof (PopulateContainer_clock c m) as Hc.
  destruct (PopulateContainer E c m) as [[c' [err|]] m1]; cbn [snd] in Hc |- *;
    [exact Hc|].
  unfold bind, ret. specialize (IH m1).
  destruct (populate_all E rest m1) as [[rest'|e] m2]; cbn [snd] in IH |- *; lia.
Qed.

(** The clock never runs backwards through [GetContainers]. *)
Lemma GetContainers_clock (populate : bool) (m : Machine) :
  clock m <= clock (GetContainers E populate m).2.
Proof.
  unfold GetContainers.
  destruct (time_Since m (lastRefreshed m) <? 10 * Second); [cbn; lia|].
  unfold bind at 1. unfold wrapping at 1. unfold external.
  assert (clock m <= clock (emit E (EvExec runc_argv) m)) as Hemit
    by (cbn [emit clock]; with_latencies).
  destruct (exec_Output E (clock m) runc_argv) as [out|e]; [|exact Hemit].
  destruct (String.length out =? 0)%nat; [exact Hemit|].
  unfold bind at 1. unfold wrapping.
  destruct (json_Unmarshal E out) as [listed|e]; [|exact Hemit].
  unfold bind. destruct populate.
  - pose proof (populate_all_clock listed (emit E (EvExec runc_argv) m)) as Hp.
    destruct (populate_all E listed (emit E (EvExec runc_argv) m)) as [[populated|e] m2];
      cbn [snd set_cache clock] in Hp |- *; lia.
  - exact Hemit.
Qed.

Lemma time_Sub_mono (t t' u : Z) : t <= t' -> time_Sub t u <= time_Sub t' u.
Proof.
  intros Ht. unfold time_Sub, maxDuration, minDuration.
  destruct (Z.ltb_spec (2 ^ 63 - 1) (t - u)), (Z.ltb_spec (2 ^ 63 - 1) (t' - u));
    try destruct (Z.ltb_spec (t - u) (- 2 ^ 63));
    try destruct (Z.ltb_spec (t' - u) (- 2 ^ 63)); lia.
Qed.

(** A call of [GetContainers] on a cache that is not fresh executes the
    listing command once, whatever follows. *)
Lemma GetContainers_stale_discoveries (populate : bool) (m : Machine) :
  10 * Second <= time_Since m (lastRefreshed m) ->
  discoveries (trace (GetContainers E populate m).2) = S (discoveries (trace m)).
Proof.
  intros Hstale. unfold GetContainers. apply Z.ltb_ge in Hstale. rewrite Hstale.
  assert (discoveries (trace (emit E (EvExec runc_argv) m)) = S (discoveries (trace m))) as Hd.
  { cbn [emit trace]. rewrite discoveries_app. unfold discoveries at 2. cbn [omap list_omap].
    rewrite decide_True by reflexivity. cbn [length]. lia. }
  unfold bind at 1. unfold wrapping at 1. unfold external.
  destruct (exec_Output E (clock m) runc_argv) as [out|e]; [|exact Hd].
  destruct (String.length out =? 0)%nat; [exact Hd|].
  unfold bind at 1. unfold wrapping.
  destruct (json_Unmarshal E out) as [listed|e]; [|exact Hd].
  unfold bind. destruct populate.
  - pose proof (populate_all_frame E listed (emit E (EvExec runc_argv) m)) as (_ & _ & Hp).
    destruct (populate_all E listed (emit E (EvExec runc_argv) m)) as [[populated|e] m2];
      cbn [snd set_cache trace] in Hp |- *; congruence.
  - exact Hd.
Qed.

(** X8. On a node whose external calls take no negative time, a tick of
    the refresher whose [GetContainers] fails ends there: the cache map
    and the last-refresh timestamp are as before the tick, and the next
    tick, however late, runs a Discovery pass again (the listing command
    has then been executed twice since before the first tick). *)
Theorem refresh_tick_failure_retried (m m' : Machine) (err : error) (d : Z) :
  GetContainers E true m = (Err err, m') ->
  0 <= d ->
  refresh_tick E m = m'
  /\ containerCache m' = containerCache m
  /\ lastRefreshed m' = lastRefreshed m
  /\ discoveries (trace m') = S (discoveries (trace m))
  /\ discoveries (trace (refresh_tick E (elapse d m'))) = S (S (discoveries (trace m))).
Proof.
  intros Hget Hd.
  assert (10 * Second <= time_Since m (lastRefreshed m)) as Hstale.
  { destruct (Z.le_gt_cases (10 * Second) (time_Since m (lastRefreshed m))) as [H|H];
      [exact H|].
    rewrite GetContainers_fresh in Hget by lia. discriminate Hget. }
  destruct (GetContainers_Err_frame E true m m' err Hget) as [Hc Hl].
  pose proof (GetContainers_stale_discoveries true m Hstale) as Hd1.
  pose proof (GetContainers_clock true m) as Hclock.
  rewrite Hget in Hd1, Hclock. cbn [snd] in Hd1, Hclock.
  split; [unfold refresh_tick; now rewrite Hget|].
  split; [exact Hc|]. split; [exact Hl|]. split; [exact Hd1|].
  assert (10 * Second <= time_Since (elapse d m') (lastRefreshed (elapse d m'))) as Hstale'.
  { unfold time_Since in *. cbn [clock lastRefreshed elapse]. rewrite Hl.
    pose proof (time_Sub_mono (clock m) (clock m' + d) (lastRefreshed m)). lia. }
  pose proof (GetContainers_stale_discoveries true (elapse d m') Hstale') as Hd2.
  unfold refresh_tick.
  destruct (GetContainers E true (elapse d m')) as [[cs|e] m2];
    cbn [snd set_cache trace elapse] in Hd2 |- *; congruence.
Qed.

End ClockFacts.

Lemma refresh_tick_failure_retried_witness :
  let E := Scenario.env (Ok "[100,200]") [200] in
  let m := Scenario.cached (30 * Second) in
  let m' := (GetContainers E true m).2 in
  refresh_tick E m = m'
  /\ containerCache m' = containerCache m
  /\ lastRefreshed m' = lastRefreshed m
  /\ discoveries (trace m') = S (discoveries (trace m))
  /\ discoveries (trace (refresh_tick E (elapse tickerPeriod m'))) = S (S (discoveries (trace m))).
Proof.
  intros E m m'.
  apply (fun Hlat => refresh_tick_failure_retried E Hlat m m'
           (fmt_Errorf "failed to get open files" (ext_error "exit status 1")) tickerPeriod).
  - intros ev. vm_compute. discriminate.
  - vm_compute. reflexivity.
  - vm_compute. discriminate.
Defined.

(** ** The identity of a container *)

Lemma run_adapter_identity (E : Env) (a : Adapter) (c c' : Container)
    (err : option error) (m m' : Machine) :
  run_adapter E a c m = ((c', err), m') -> same_identity c c'.
Proof.
  destruct a; cbv [run_adapter assign];
    match goal with
    | |- context [let '(_, _) := ?x in _] => destruct x as [r m1]
    end;
    intros H; inversion H; subst; repeat split; reflexivity.
Qed.

Lemma sequential_identity (E : Env) (adapters : list Adapter) (c c' : Container)
    (log : list (Adapter * option error)) (m m' : Machine) :
  sequential E adapters c m log c' m' -> same_identity c c'.
Proof.
  induction 1 as [c m | a rest c m c1 m1 log c2 m2 Hrun _ IH | a rest c m c1 e m1 Hrun].
  - repeat split; reflexivity.
  - apply run_adapter_identity in Hrun. unfold same_identity in *.
    repeat match goal with H : _ /\ _ |- _ => destruct H end.
    repeat split; congruence.
  - eapply run_adapter_identity, Hrun.
Qed.

(** X9. [PopulateContainer], whether it succeeds or stops at an error,
    changes none of the fields Discovery decoded (OCI version, id,
    process id, status, bundle, root filesystem, creation time,
    annotations, owner), nor the top processes, nor the resource
    limits. *)
Theorem PopulateContainer_keeps_identity (E : Env) (c : Container) (m : Machine) :
  same_identity c (PopulateContainer E c m).1.1.
Proof.
  destruct (PopulateContainer_log E c m) as (log & Hseq & _).
  eapply sequential_identity, Hseq.
Qed.

(** ** The open-files parser on any text *)

Lemma step_record_pids (st : Lsof.loop_state) (line : string) :
  record_pids (Lsof.step st line) =
  record_pids st ++ match LsofSpec.tagged "p" line with Some v => [v] | None => [] end.
Proof.
  destruct st as [entries e].
  destruct (LsofSpec.tagged "p" line) as [v|] eqn:Hp.
  - destruct line as [|t [|a s]]; try discriminate Hp.
    cbn in Hp. destruct (Ascii.eqb_spec t "p") as [->|_]; [|discriminate Hp].
    injection Hp as <-. unfold record_pids. cbn.
    destruct (String.eqb (lsof_PID e) ""); cbn.
    + now rewrite app_nil_r.
    + rewrite map_app. reflexivity.
  - rewrite (step_body_line _ _ _ Hp). unfold record_pids. cbn. now rewrite app_nil_r.
Qed.

Lemma fold_record_pids (lines : list string) :
  forall st : Lsof.loop_state,
  record_pids (fold_left Lsof.step lines st) =
  record_pids st ++ omap (LsofSpec.tagged "p") lines.
Proof.
  induction lines as [|l lines IH]; intros st.
  - cbn. now rewrite app_nil_r.
  - cbn [fold_left]. rewrite IH, step_record_pids.
    change (omap (LsofSpec.tagged "p") (l :: lines))
      with (match LsofSpec.tagged "p" l with
            | Some v => v :: omap (LsofSpec.tagged "p") lines
            | None => omap (LsofSpec.tagged "p") lines
            end).
    rewrite <- app_assoc. destruct (LsofSpec.tagged "p" l); reflexivity.
Qed.

Lemma flush_record_pids (st : Lsof.loop_state) :
  map lsof_PID (Lsof.flush st) = record_pids st.
Proof.
  destruct st as [entries e]. unfold Lsof.flush, record_pids. cbn.
  destruct (String.eqb (lsof_PID e) ""); cbn.
  - now rewrite app_nil_r.
  - apply map_app.
Qed.

(** X10. For every output text, well formed or not, the PIDs of the
    records the open-files parser returns are the values of the [p] lines
    of the text (the lines longer than one byte that start with [p]), in
    their order: one record for each such line, none with an empty PID,
    and no record at all for a text without one. *)
Theorem lsof_parse_pids (out : string) :
  map lsof_PID (Lsof.parse out) = omap (LsofSpec.tagged "p") (Split newline out)
  /\ length (Lsof.parse out) = length (omap (LsofSpec.tagged "p") (Split newline out))
  /\ Forall (fun e => String.eqb (lsof_PID e) "" = false) (Lsof.parse out).
Proof.
  assert (map lsof_PID (Lsof.parse out) = omap (LsofSpec.tagged "p") (Split newline out))
    as Hpids.
  { unfold Lsof.parse. rewrite flush_record_pids, fold_record_pids. reflexivity. }
  split; [exact Hpids|]. split.
  - rewrite <- Hpids. now rewrite length_map.
  - apply Forall_forall. intros e He.
    assert (lsof_PID e ∈ omap (LsofSpec.tagged "p") (Split newline out)) as Hin.
    { rewrite <- Hpids. apply list_elem_of_fmap. eauto. }
    apply list_elem_of_omap in Hin as (line & _ & Htag).
    destruct line as [|t [|a s]]; try discriminate Htag.
    cbn in Htag. destruct (Ascii.eqb t "p"); [|discriminate Htag].
    injection Htag as <-. reflexivity.
Qed.

(** ** Tables of separated fields *)

Section TableFacts.

Lemma no_sep_spec (sep : ascii) (s : string) :
  no_sep sep s = true -> forall c, In c (list_ascii_of_string s) -> c <> sep.
Proof.
  unfold no_sep. rewrite forallb_forall. intros H c Hc ->.
  specialize (H sep Hc). rewrite Ascii.eqb_refl in H. discriminate H.
Qed.

(** Splitting the joined fields gives the fields back. *)
Lemma Split_Join_sep (sep : ascii) (ls : list string) :
  ls <> [] -> Forall (fun l => no_sep sep l = true) ls ->
  Split sep (Join sep ls) = ls.
Proof.
  induction ls as [|l rest IH]; intros Hne Hall; [congruence|].
  inversion Hall as [|? ? Hl Hrest]; subst.
  destruct rest as [|l' rest'].
  - cbn. apply Split_no_sep, no_sep_spec, Hl.
  - change (Join sep (l :: l' :: rest'))
      with (String.append l (String sep (Join sep (l' :: rest')))).
    rewrite Split_append by (apply no_sep_spec, Hl).
    rewrite IH; [reflexivity | discriminate | assumption].
Qed.

Lemma list_ascii_append (a b : string) :
  list_ascii_of_string (String.append a b) = list_ascii_of_string a ++ list_ascii_of_string b.
Proof.
  induction a as [|c a IH]; [reflexivity|].
  change (String.append (String c a) b) with (String c (String.append a b)).
  cbn [list_ascii_of_string app]. now rewrite IH.
Qed.

Lemma no_sep_append (sep : ascii) (a b : string) :
  no_sep sep (String.append a b) = no_sep sep a && no_sep sep b.
Proof. unfold no_sep. now rewrite list_ascii_append, forallb_app. Qed.

(** Joining fields with another separator brings no [sep] in. *)
Lemma no_sep_Join (sep other : ascii) (ls : list string) :
  other <> sep -> Forall (fun l => no_sep sep l = true) ls ->
  no_sep sep (Join other ls) = true.
Proof.
  intros Hne. induction ls as [|l rest IH]; intros Hall; [reflexivity|].
  inversion Hall as [|? ? Hl Hrest]; subst.
  destruct rest as [|l' rest']; [exact Hl|].
  change (Join other (l :: l' :: rest'))
    with (String.append l (String other (Join other (l' :: rest')))).
  rewrite no_sep_append, Hl. cbn [andb].
  unfold no_sep in *. cbn [list_ascii_of_string forallb].
  rewrite (IH Hrest), andb_true_r.
  apply negb_true_iff, Ascii.eqb_neq. exact Hne.
Qed.

Lemma mount_point_Join (row : list string) :
  Forall (fun f => no_sep " " f = true) row ->
  mount_point (Join " " row) = row_mount_point row.
Proof.
  intros Hrow. unfold mount_point, row_mount_point.
  destruct row as [|f row]; [reflexivity|].
  rewrite Split_Join_sep; [reflexivity | discriminate | exact Hrow].
Qed.

End TableFacts.

(** X11. When the mounts pseudo-file of the container's process holds a
    table of space-separated fields, one entry a line (fields without
    spaces or line feeds, possibly empty; lines possibly empty),
    [getContainerMountedVolumes] returns, in the order of the table, the
    second field of each entry of more than two fields and nothing for
    the other lines. *)
Theorem getContainerMountedVolumes_table (E : Env) (c : Container) (m : Machine)
    (rows : list (list string)) :
  Forall (Forall (fun f => no_sep " " f = true /\ no_sep newline f = true)) rows ->
  os_ReadFile E (clock m) (proc_path (PID c) "/mounts") = Ok (render_table rows) ->
  (getContainerMountedVolumes E c m).1 = Ok (omap row_mount_point rows).
Proof.
  intros Hrows Hread.
  unfold getContainerMountedVolumes, bind, enter, external, ret.
  cbn [clock]. rewrite Hread. cbn [fst]. f_equal.
  assert (Forall (fun row => Forall (fun f => no_sep " " f = true) row) rows) as Hsp.
  { eapply Forall_impl; [exact Hrows|]. intros row Hr.
    eapply Forall_impl; [exact Hr|]. now intros f [? _]. }
  assert (Forall (fun row => Forall (fun f => no_sep newline f = true) row) rows) as Hnl.
  { eapply Forall_impl; [exact Hrows|]. intros row Hr.
    eapply Forall_impl; [exact Hr|]. now intros f [_ ?]. }
  unfold render_table. destruct rows as [|row rows]; [reflexivity|].
  rewrite Split_Join_sep.
  - clear Hrows Hnl Hread. induction (row :: rows) as [|r rs IH]; [reflexivity|].
    inversion Hsp as [|? ? Hr Hrs]; subst.
    change (omap mount_point (map (Join " ") (r :: rs)))
      with (match mount_point (Join " " r) with
            | Some v => v :: omap mount_point (map (Join " ") rs)
            | None => omap mount_point (map (Join " ") rs)
            end).
    rewrite (mount_point_Join r Hr), (IH Hrs). reflexivity.
  - discriminate.
  - apply Forall_forall. intros line Hline.
    apply list_elem_of_fmap in Hline as (r & -> & Hr).
    apply no_sep_Join; [discriminate|].
    rewrite Forall_forall in Hnl. exact (Hnl r Hr).
Qed.

Lemma getContainerMountedVolumes_table_witness :
  let rows := [ ["overlay"; "/"; "overlay"; "rw,relatime"; "0"; "0"];
                ["proc"; "/proc"; "proc"; "rw,nosuid"; "0"; "0"]; [] ] in
  (getContainerMountedVolumes (Scenario.env (Ok "[100]") []) (Scenario.bare 100)
     Scenario.fresh_start).1 = Ok ["/"; "/proc"].
Proof.
  intros rows.
  apply (getContainerMountedVolumes_table (Scenario.env (Ok "[100]") [])
           (Scenario.bare 100) Scenario.fresh_start rows).
  - repeat constructor.
  - reflexivity.
Defined.

(** ** The network interfaces *)

Lemma omap_all_None {A B} (f : A -> option B) (l : list A) :
  (forall x, In x l -> f x = None) -> omap f l = [].
Proof.
  induction l as [|x l IH]; intros H; [reflexivity|].
  change (omap f (x :: l)) with (match f x with Some y => y :: omap f l | None => omap f l end).
  rewrite (H x) by now left. apply IH. intros y Hy. apply H. now right.
Qed.

Lemma interfaces_lookup (lines : list string) (k : string) :
  fold_left interfaces_step lines ∅ !! k = last (omap (inet_entry k) lines).
Proof.
  induction lines as [|l lines IH] using rev_ind; [reflexivity|].
  rewrite fold_left_app, omap_app. cbn [fold_left].
  change (omap (inet_entry k) [l])
    with (match inet_entry k l with Some v => [v] | None => [] end).
  unfold interfaces_step, inet_entry.
  destruct (Contains l "inet "); cbn [andb]; [|now rewrite app_nil_r].
  destruct (1 <? length (Fields l))%nat; cbn [andb]; [|now rewrite app_nil_r].
  destruct (String.eqb_spec (nth 0 (Fields l) "") k) as [Hk|Hk].
  - rewrite last_snoc, Hk. apply lookup_insert_eq.
  - rewrite app_nil_r, lookup_insert_ne by exact Hk. exact IH.
Qed.

(** X12. When the namespace-entry tool answers [out],
    [getContainerNetworkInterfaces] returns the map that holds, under the
    first field of each line of [out] that contains "inet " and has more
    than one field, the second field of the last such line with that
    first field, and nothing else.  On the output of an interface tool
    whose address lines start with the word "inet", the map has no key
    but "inet": no interface name ever becomes a key. *)
Theorem getContainerNetworkInterfaces_lookup (E : Env) (c : Container) (m : Machine)
    (out : string) :
  exec_Output E (clock m) (nsenter_argv (PID c)) = Ok out ->
  exists info,
    (getContainerNetworkInterfaces E c m).1 = Ok info
    /\ (forall k, info !! k = last (omap (inet_entry k) (Split newline out)))
    /\ ((forall line, In line (Split newline out) -> Contains line "inet " = true ->
                      nth 0 (Fields line) "" = "inet") ->
        forall k, String.eqb k "inet" = false -> info !! k = None).
Proof.
  intros Hout. exists (fold_left interfaces_step (Split newline out) ∅).
  split; [|split].
  - unfold getContainerNetworkInterfaces, bind, external, ret. now rewrite Hout.
  - intros k. apply interfaces_lookup.
  - intros Hinet k Hk. rewrite interfaces_lookup, omap_all_None; [reflexivity|].
    intros line Hline. unfold inet_entry.
    destruct (Contains line "inet ") eqn:Hc; [|reflexivity].
    rewrite (Hinet line Hline Hc).
    destruct (String.eqb_spec "inet" k) as [<-|_]; [discriminate Hk|].
    now rewrite andb_false_r.
Qed.

Lemma getContainerNetworkInterfaces_lookup_witness :
  let out :=
    Join newline
      ["eth0: flags=4163<UP,BROADCAST,RUNNING,MULTICAST>  mtu 1500";
       "        inet 172.17.0.2  netmask 255.255.0.0  broadcast 172.17.255.255";
       "lo: flags=73<UP,LOOPBACK,RUNNING>  mtu 65536";
       "        inet 127.0.0.1  netmask 255.0.0.0";
       "        inet6 ::1  prefixlen 128  scopeid 0x10<host>"; ""] in
  let E := Scenario.env (Ok out) [] in
  exists info,
    (getContainerNetworkInterfaces E (Scenario.bare 100) Scenario.fresh_start).1 = Ok info
    /\ (forall k, info !! k = last (omap (inet_entry k) (Split newline out)))
    /\ ((forall line, In line (Split newline out) -> Contains line "inet " = true ->
                      nth 0 (Fields line) "" = "inet") ->
        forall k, String.eqb k "inet" = false -> info !! k = None).
Proof.
  intros out E.
  apply (getContainerNetworkInterfaces_lookup E (Scenario.bare 100) Scenario.fresh_start out).
  reflexivity.
Defined.

(** ** The table and the details *)

Section TableViewFacts.

Variable E : Env.

Lemma table_rows_returned (containers : list Container) :
  forall rows, table_rows E containers = Returned rows ->
  length rows = length containers
  /\ forall i c, containers !! i = Some c ->
       exists t, time_Parse E "2006-01-02T15:04:05.999999999Z" (Created c) = Ok t
                 /\ rows !! i = Some [Itoa (PID c); Owner c;
                                      time_Format E t "02-Jan-2006-03:04 PM"; Status c].
Proof.
  induction containers as [|c rest IH]; intros rows H.
  - inversion H; subst. split; [reflexivity|]. intros i c Hi. discriminate Hi.
  - cbn [table_rows] in H.
    destruct (time_Parse E _ (Created c)) as [t|e] eqn:Hparse; [|discriminate H].
    destruct (table_rows E rest) as [rows'|e]; [|discriminate H].
    inversion H; subst. destruct (IH rows' eq_refl) as [Hlen Hrows].
    split; [cbn; now rewrite Hlen|].
    intros [|i] c0 Hi.
    + injection Hi as <-. exists t. split; [exact Hparse | reflexivity].
    + exact (Hrows i c0 Hi).
Qed.


End TableViewFacts.

(** X13. When [refreshTable] returns, [GetContainers(true)] had returned
    containers without an error, and the table holds the header row and,
    below it, one row for each of these containers in their order: the
    printed process id, the owner, the creation time (which parsed)
    in the display format, and the status. *)
Theorem refreshTable_returns (E : Env) (m m1 : Machine) (table : list (list string)) :
  refreshTable E m = (Returned table, m1) ->
  exists containers,
    GetContainers E true m = (Ok containers, m1)
    /\ length table = S (length containers)
    /\ table !! 0%nat = Some ["PID"; "Owner"; "Created"; "Status"]
    /\ forall i c, containers !! i = Some c ->
         exists t, time_Parse E "2006-01-02T15:04:05.999999999Z" (Created c) = Ok t
                   /\ table !! S i = Some [Itoa (PID c); Owner c;
                                           time_Format E t "02-Jan-2006-03:04 PM";
                                           Status c].
Proof.
  unfold refreshTable.
  destruct (GetContainers E true m) as [[containers|e] m'] eqn:Hget; [|discriminate].
  destruct (table_rows E containers) as [rows|e] eqn:Hrows; [|discriminate].
  intros H. inversion H; subst. exists containers.
  destruct (table_rows_returned E containers rows Hrows) as [Hlen Hcells].
  split; [reflexivity|]. split; [cbn; now rewrite Hlen|]. split; [reflexivity|].
  exact Hcells.
Qed.

Lemma refreshTable_returns_witness :
  let E := Scenario.env (Ok "[100,200]") [] in
  let m := Scenario.cached (30 * Second) in
  let r := refreshTable E m in
  let table := match r.1 with Returned t => t | Panicked _ => [] end in
  exists containers,
    GetContainers E true m = (Ok containers, r.2)
    /\ length table = S (length containers)
    /\ table !! 0%nat = Some ["PID"; "Owner"; "Created"; "Status"]
    /\ forall i c, containers !! i = Some c ->
         exists t, time_Parse E "2006-01-02T15:04:05.999999999Z" (Created c) = Ok t
                   /\ table !! S i = Some [Itoa (PID c); Owner c;
                                           time_Format E t "02-Jan-2006-03:04 PM";
                                           Status c].
Proof.
  intros E m r table.
  apply (refreshTable_returns E m r.2 table).
  vm_compute. reflexivity.
Defined.


(** ** Rows and cache keys *)

Lemma int_of_string_Itoa (z : Z) :
  NilZero.int_of_string (Itoa z) = Some (Z.to_int z).
Proof.
  unfold Itoa. destruct z as [|p|p]; [reflexivity| |]; apply NilZero.isi;
    cbn [Z.to_int]; try discriminate; intros [= Hn];
    exact (DecimalPos.Unsigned.to_uint_nonnil p Hn).
Qed.

(** X15. After a [refreshTable] that ran a Discovery pass and returned,
    [updateDetails] on any row below the header finds a cached container
    whose process id is the one the row shows, and hands it to
    [showDetails]; on the header row it finds nothing and shows
    nothing. *)
Theorem updateDetails_after_refresh (E : Env) (m m1 : Machine)
    (table : list (list string)) :
  10 * Second <= time_Since m (lastRefreshed m) ->
  refreshTable E m = (Returned table, m1) ->
  (forall row, (1 <= row < length table)%nat ->
     exists c, updateDetails table row m1 = Some c
               /\ Itoa (PID c) = GetCell table row 0)
  /\ updateDetails table 0 m1 = None.
Proof.
  intros Hstale Hrt. unfold refreshTable in Hrt.
  destruct (GetContainers E true m) as [[containers|e] m'] eqn:Hget; [|discriminate Hrt].
  destruct (table_rows E containers) as [rows|e] eqn:Htr; [|discriminate Hrt].
  inversion Hrt; subst. clear Hrt.
  destruct (table_rows_returned E containers rows Htr) as [Hrlen Hrows].
  assert (length (table_header :: rows) = S (length containers)) as Hlen
    by (cbn; now rewrite Hrlen).
  assert ((table_header :: rows) !! 0%nat = Some table_header) as Hhead by reflexivity.
  destruct (GetContainers_stale_ok E true m m1 containers Hstale Hget) as [Hcache _].
  set (table := table_header :: rows) in *.
  assert (forall i (row : list string),
            table !! i = Some row -> nth i table [] = row) as Hnth.
  { intros i row Hi. now apply nth_lookup_Some with (d := []) in Hi. }
  split.
  - intros row [Hlo Hhi]. destruct row as [|i]; [lia|].
    destruct (lookup_lt_is_Some_2 containers i) as [c Hc]; [lia|].
    destruct (Hrows i c Hc) as (t & _ & Hrow).
    change (rows !! i) with (table !! S i) in Hrow.
    destruct (store_all_finds containers c) as (c' & Hc' & Hpid & _).
    { apply list_elem_of_In, list_elem_of_lookup. eauto. }
    rewrite <- Hcache in Hc'.
    exists c'. unfold updateDetails, GetCell. rewrite (Hnth _ _ Hrow). cbn [nth].
    split; [exact Hc'|]. now rewrite Hpid.
  - unfold updateDetails, GetCell. rewrite (Hnth _ _ Hhead).
    unfold table_header. cbn [nth].
    rewrite Hcache, store_all_empty_lookup.
    destruct (stored_under "PID" containers) as [c|] eqn:Hs; [|reflexivity].
    apply stored_under_In in Hs as [_ Hk].
    pose proof (int_of_string_Itoa (PID c)) as Hi. rewrite Hk in Hi. discriminate Hi.
Qed.

Lemma updateDetails_after_refresh_witness :
  let E := Scenario.env (Ok "[100,200]") [] in
  let m := Scenario.cached (30 * Second) in
  let r := refreshTable E m in
  let table := match r.1 with Returned t => t | Panicked _ => [] end in
  (forall row, (1 <= row < length table)%nat ->
     exists c, updateDetails table row r.2 = Some c
               /\ Itoa (PID c) = GetCell table row 0)
  /\ updateDetails table 0 r.2 = None.
Proof.
  intros E m r table.
  apply (updateDetails_after_refresh E m r.2 table).
  - vm_compute. discriminate.
  - vm_compute. reflexivity.
Defined.

(** ** Population keeps the listing *)

Lemma populate_all_identity (E : Env) (containers : list Container) :
  forall (m m' : Machine) (populated : list Container),
  populate_all E containers m = (Ok populated, m') ->
  Forall2 same_identity containers populated.
Proof.
  induction containers as [|c rest IH]; intros m m' populated H.
  - inversion H; subst. constructor.
  - cbn [populate_all] in H.
    assert (same_identity c (PopulateContainer E c m).1.1) as Hid.
    { destruct (PopulateContainer_log E c m) as (log & Hseq & _).
      eapply sequential_identity, Hseq. }
    destruct (PopulateContainer E c m) as [[c' [err|]] m1]; [discriminate H|].
    unfold bind, ret in H.
    destruct (populate_all E rest m1) as [[rest'|e] m2] eqn:Hrest; [|discriminate H].
    inversion H; subst. constructor; [exact Hid | exact (IH _ _ _ Hrest)].
Qed.

(** X16. The containers that a call of [GetContainers] returns from a
    Discovery pass are, one for one and in order, the containers the
    listing decoded to, with every field that Discovery decoded
    unchanged by the population. *)
Theorem GetContainers_pass_identity (E : Env) (populate : bool) (m m1 : Machine)
    (containers : list Container) :
  10 * Second <= time_Since m (lastRefreshed m) ->
  GetContainers E populate m = (Ok containers, m1) ->
  exists out listed,
    exec_Output E (clock m) runc_argv = Ok out
    /\ json_Unmarshal E out = Ok listed
    /\ Forall2 same_identity listed containers.
Proof.
  intros Hstale Hget.
  destruct (GetContainers_stale_inv E populate m m1 containers Hstale Hget)
    as (out & listed & m' & Hout & _ & Hjson & Hpop & _).
  exists out, listed. split; [exact Hout|]. split; [exact Hjson|].
  destruct populate.
  - exact (populate_all_identity E listed _ _ _ Hpop).
  - inversion Hpop; subst. clear.
    induction containers; constructor; [repeat split; reflexivity | assumption].
Qed.

Lemma GetContainers_pass_identity_witness :
  let E := Scenario.env (Ok "[100,200]") [] in
  let m := Scenario.cached (30 * Second) in
  let g := GetContainers E true m in
  exists out listed,
    exec_Output E (clock m) runc_argv = Ok out
    /\ json_Unmarshal E out = Ok listed
    /\ Forall2 same_identity listed (zero_or [] g.1).
Proof.
  intros E m g.
  apply (GetContainers_pass_identity E true m g.2 (zero_or [] g.1)).
  - vm_compute. discriminate.
  - vm_compute. reflexivity.
Defined.


(** ** A tick that runs a pass *)

Lemma store_all_idempotent (containers : list Container) :
  store_all containers (store_all containers ∅) = store_all containers ∅.
Proof.
  apply map_eq. intros k. rewrite store_all_lookup, store_all_empty_lookup.
  destruct (stored_under k containers); reflexivity.
Qed.

(** X17. On a tick of the refresher whose [GetContainers] ran a
    Discovery pass and succeeded, the merge loop of the tick changes
    nothing in the cache map: the map after the tick is the map as
    [GetContainers] left it; and the tick calls nothing outside the
    program beyond what [GetContainers] called.  (Nothing is said of the
    last-refresh timestamp, which the tick sets from a reading of the
    clock of its own.) *)
Theorem refresh_tick_after_pass (E : Env) (m m1 : Machine) (containers : list Container) :
  10 * Second <= time_Since m (lastRefreshed m) ->
  GetContainers E true m = (Ok containers, m1) ->
  containerCache (refresh_tick E m) = containerCache m1
  /\ trace (refresh_tick E m) = trace m1.
Proof.
  intros Hstale Hget. unfold refresh_tick. rewrite Hget.
  destruct (GetContainers_stale_ok E true m m1 containers Hstale Hget) as [Hcache _].
  cbn [set_cache containerCache trace]. split; [|reflexivity].
  rewrite Hcache. apply store_all_idempotent.
Qed.

Lemma refresh_tick_after_pass_witness :
  let E := Scenario.env (Ok "[100,200]") [] in
  let m := Scenario.cached (30 * Second) in
  containerCache (refresh_tick E m) = containerCache (GetContainers E true m).2
  /\ trace (refresh_tick E m) = trace (GetContainers E true m).2.
Proof.
  intros E m.
  apply (refresh_tick_after_pass E m (GetContainers E true m).2
           (zero_or [] (GetContainers E true m).1)).
  - vm_compute. discriminate.
  - vm_compute. reflexivity.
Defined.

(** ** A lookup that misses, then a refresh *)

Section MissFacts.

Variable E : Env.

Lemma table_rows_some_fail (containers : list Container) (c : Container) (e : error) :
  In c containers ->
  time_Parse E "2006-01-02T15:04:05.999999999Z" (Created c) = Err e ->
  exists e', table_rows E containers = Panicked e'.
Proof.
  intros Hin Hc. induction containers as [|x rest IH]; [contradiction|].
  cbn [table_rows].
  destruct (time_Parse E _ (Created x)) as [t|ex] eqn:Hx; [|eauto].
  destruct Hin as [->|Hin]; [congruence|].
  destruct (IH Hin) as [e' ->]. eauto.
Qed.

(** The end of [GetContainerByID] when no container of the pass has the
    process id asked for. *)
Lemma GetContainerByID_miss (pid : string) (pidInt : Z) (m m1 : Machine)
    (containers : list Container) :
  Atoi pid = Ok pidInt ->
  containerCache m !! pid = None ->
  GetContainers E false m = (Ok containers, m1) ->
  (forall c, In c containers -> PID c <> pidInt) ->
  (GetContainerByID E pid m).2 =
  set_cache (<[pid := zero_Container]> (containerCache m1)) (clock m1) m1.
Proof.
  intros Hatoi Hnone Hget Hmiss. unfold GetContainerByID. rewrite Hnone.
  cbn [bool_decide default andb].
  assert (bool_decide (is_Some (@None Container)) = false) as -> by reflexivity.
  cbn [andb]. unfold bind at 1. unfold wrapping. rewrite Hatoi.
  unfold bind. rewrite Hget, (find_pid_none _ _ Hmiss). reflexivity.
Qed.

End MissFacts.

(** X18. A lookup by [GetContainerByID] of a pid that is not cached and
    that no container of the pass has leaves the zero [Container] in the
    cache under that pid and marks the cache as just refreshed.  If the
    empty creation time does not parse, a [refreshTable] within the next
    10 seconds is answered from the cache, meets that entry, and
    panics. *)
Theorem refreshTable_after_miss_panics (E : Env) (pid : string) (pidInt : Z)
    (m m1 : Machine) (containers : list Container) (e : error) (d : Z) :
  Atoi pid = Ok pidInt ->
  containerCache m !! pid = None ->
  GetContainers E false m = (Ok containers, m1) ->
  (forall c, In c containers -> PID c <> pidInt) ->
  time_Parse E "2006-01-02T15:04:05.999999999Z" "" = Err e ->
  0 <= d < 10 * Second ->
  let m2 := (GetContainerByID E pid m).2 in
  containerCache m2 !! pid = Some zero_Container
  /\ exists e', refreshTable E (elapse d m2) = (Panicked e', elapse d m2).
Proof.
  intros Hatoi Hnone Hget Hmiss Hparse Hd m2. subst m2.
  rewrite (GetContainerByID_miss E pid pidInt m m1 containers Hatoi Hnone Hget Hmiss).
  set (m2 := set_cache _ _ m1).
  assert (containerCache m2 !! pid = Some zero_Container) as Hzero
    by apply lookup_insert_eq.
  split; [exact Hzero|].
  unfold refreshTable. rewrite GetContainers_fresh.
  - assert (In zero_Container (range_values E (elapse d m2))) as Hin.
    { apply list_elem_of_In. rewrite range_values_perm.
      apply list_elem_of_fmap. exists (pid, zero_Container). split; [reflexivity|].
      now apply elem_of_map_to_list. }
    destruct (table_rows_some_fail E _ zero_Container e Hin Hparse) as [e' ->].
    now exists e'.
  - unfold time_Since. cbn [clock lastRefreshed elapse m2 set_cache].
    rewrite time_Sub_small by exact Hd. apply Hd.
Qed.

Lemma refreshTable_after_miss_panics_witness :
  let E := Scenario2.strict_env_100 in
  let m := Scenario.cached (30 * Second) in
  let m2 := (GetContainerByID E "300" m).2 in
  containerCache m2 !! "300" = Some zero_Container
  /\ exists e', refreshTable E (elapse (3 * Second) m2) = (Panicked e', elapse (3 * Second) m2).
Proof.
  intros E m.
  apply (refreshTable_after_miss_panics E "300" 300 m (GetContainers E false m).2
           [Scenario.bare 100] (ext_error "parsing time: cannot parse") (3 * Second)).
  - reflexivity.
  - reflexivity.
  - vm_compute. reflexivity.
  - intros c [<-|[]]. vm_compute. discriminate.
  - reflexivity.
  - vm_compute. split; [discriminate | reflexivity].
Defined.
